(** * AmityBot admin dashboard: handlers and the chat route, embedded in Rocq

    The repository is a Next.js client: page components whose event
    handlers issue one HTTP request and report the outcome through toasts,
    router navigation and React state setters, plus one server route that
    forwards a conversation to the Groq SDK.

    Every handler is embedded as a computation in a writer/exception monad
    [M]: the log records, in program order, each observable action (requests,
    toasts, navigations, console output and state-setter calls) and the
    result is either a value or the JavaScript exception that escaped.  The
    network, the Groq service and the incoming request are inputs of the
    handlers, so each one is a total, executable function. *)

From Stdlib Require Import List String Ascii ZArith Bool Lia DecimalString.
Import ListNotations.
Local Open Scope string_scope.
Local Open Scope Z_scope.

(** ** The JavaScript runtime the source relies on *)

(** Operations of the language runtime that the source calls but does not
    define.  The development is parametric in them. *)
Class Runtime : Type := {
  (** IEEE-754 doubles, the numbers a JSON document can hold. *)
  number : Type;
  (** [ToBoolean] on numbers: false exactly on [+0], [-0] and [NaN]. *)
  number_truthy : number -> bool;
  (** [Number::toString]. *)
  number_to_string : number -> string;
  (** [String.prototype.trim]. *)
  trim : string -> string;
  (** [process.env.NEXT_PUBLIC_API_BASE_URL]; [None] when unset. *)
  NEXT_PUBLIC_API_BASE_URL : option string
}.

(** A reference runtime for running the model on concrete inputs: numbers
    are integers printed in decimal, and [trim] strips the ASCII white
    space and line terminators. *)
Definition is_space (c : ascii) : bool :=
  let n := nat_of_ascii c in
  (Nat.eqb n 32 || (Nat.leb 9 n && Nat.leb n 13))%bool.

Fixpoint trim_start (s : string) : string :=
  match s with
  | String c r => if is_space c then trim_start r else s
  | EmptyString => EmptyString
  end.

Fixpoint rev_string (acc s : string) : string :=
  match s with
  | String c r => rev_string (String c acc) r
  | EmptyString => acc
  end.

Definition trim_ascii (s : string) : string :=
  rev_string "" (trim_start (rev_string "" (trim_start s))).

Definition Z_to_string (z : Z) : string :=
  NilZero.string_of_int (Z.to_int z).

Definition reference_runtime : Runtime := {|
  number := Z;
  number_truthy := fun n => negb (n =? 0);
  number_to_string := Z_to_string;
  trim := trim_ascii;
  NEXT_PUBLIC_API_BASE_URL := None
|}.

(** ** Exceptions *)

Inductive exn : Type :=
| NetworkError                  (* fetch rejected *)
| SyntaxError                   (* res.json() / req.json() on a non-JSON body *)
| TypeError                     (* property of null or undefined, call of a non-function *)
| Error (message : string)      (* new Error(message) *)
| GroqError.                    (* the Groq SDK rejected *)

(** How a computation ends: with a value, or with an exception. *)
Inductive result (A : Type) : Type :=
| Returned (a : A)
| Thrown (e : exn).
Arguments Returned {A} a.
Arguments Thrown {A} e.

Section Dashboard.

Context {RT : Runtime}.

(** ** JavaScript values *)

(** The values that flow through the handlers: whatever [JSON.parse] can
    return, plus [undefined] (the result of reading an absent property). *)
#[local] Unset Elimination Schemes.
Inductive jsval : Type :=
| JUndefined
| JNull
| JBool (b : bool)
| JNum (n : number)
| JStr (s : string)
| JArr (items : list jsval)
| JObj (fields : list (string * jsval)).
#[local] Set Elimination Schemes.

Definition is_nullish (v : jsval) : bool :=
  match v with
  | JUndefined | JNull => true
  | _ => false
  end.

(** [ToBoolean]. *)
Definition truthy (v : jsval) : bool :=
  match v with
  | JUndefined | JNull => false
  | JBool b => b
  | JNum n => number_truthy n
  | JStr s => negb (s =? "")%string
  | JArr _ | JObj _ => true
  end.

(** [a || b] *)
Definition or_else (a b : jsval) : jsval := if truthy a then a else b.

(** [v === 'lit'] against a string literal. *)
Definition strict_eq_string (v : jsval) (lit : string) : bool :=
  match v with
  | JStr s => (s =? lit)%string
  | _ => false
  end.

Fixpoint lookup (k : string) (fields : list (string * jsval)) : jsval :=
  match fields with
  | [] => JUndefined
  | (k', v) :: rest => if (k' =? k)%string then v else lookup k rest
  end.

(** Reading a named property of a non-nullish value.  Only data properties
    of objects are modelled: every name the source reads ([result], [role],
    [message], [detail], [id], [name], [status], [job_id], [duration],
    [messages], [content], [choices]) is absent from the prototypes of
    strings, numbers, booleans and arrays. *)
Definition get (v : jsval) (k : string) : jsval :=
  match v with
  | JObj fields => lookup k fields
  | _ => JUndefined
  end.

(** [v?.k] *)
Definition opt_get (v : jsval) (k : string) : jsval :=
  if is_nullish v then JUndefined else get v k.

(** [v?.[0]] *)
Definition opt_first (v : jsval) : jsval :=
  match v with
  | JArr (x :: _) => x
  | JStr (String c _) => JStr (String c EmptyString)
  | JObj fields => lookup "0" fields
  | _ => JUndefined
  end.

(** [ToString], as applied by a template literal. *)
Fixpoint to_string (v : jsval) : string :=
  match v with
  | JUndefined => "undefined"
  | JNull => "null"
  | JBool true => "true"
  | JBool false => "false"
  | JNum n => number_to_string n
  | JStr s => s
  | JArr items =>
      let elem x := if is_nullish x then "" else to_string x in
      (fix join (l : list jsval) : string :=
         match l with
         | [] => ""
         | [x] => elem x
         | x :: r => elem x ++ "," ++ join r
         end) items
  | JObj _ => "[object Object]"
  end.

(** ** Requests, responses and observable actions *)

Record File : Type := { file_name : string; file_data : string }.

Inductive form_value : Type :=
| FormText (s : string)
| FormFile (f : File).

Inductive req_body : Type :=
| NoBody
| JsonBody (v : jsval)                              (* JSON.stringify(v) *)
| FormBody (entries : list (string * form_value)).  (* a FormData object *)

(** The arguments of a [fetch] call. *)
Record request : Type := {
  url : string;
  method : string;
  headers : list (string * string);
  credentials : option string;
  body : req_body
}.

(** What the handlers look at in a [Response]: the status, and the value
    [res.json()] resolves to ([None]: the body is not JSON and [res.json()]
    rejects). *)
Record response : Type := { status : Z; json : option jsval }.

(** [res.ok] *)
Definition ok (res : response) : bool :=
  (200 <=? status res) && (status res <=? 299).

Inductive fetch_result : Type :=
| Rejected                      (* network error: the promise rejects *)
| Resolved (res : response).

Record message : Type := { msg_role : string; msg_content : jsval }.

(** Calls of React state setters. *)
Inductive update : Type :=
| SetMessages_append (m : message)           (* setMessages(prev => [...prev, m]) *)
| SetHistory_append (pair : string * jsval)  (* setHistory(prev => [...prev, pair]) *)
| SetQuery (q : string)
| SetRole (r : string)
| SetLoading (b : bool)
| SetLeads (v : jsval)
| SetLogs (v : jsval).

Inductive event : Type :=
| Fetch (req : request)
| GroqCreate (messages : jsval) (model : string)
| ToastSuccess (msg : jsval)
| ToastError (msg : jsval)
| RouterPush (href : string)
| RouterReplace (href : string)
| ConsoleError (label : option string) (e : exn)
| SetState (u : update).

(** ** The monad of handlers *)

(** A log of actions in program order, and how the computation ended. *)
Definition M (A : Type) : Type := (list event * result A)%type.

Definition ret {A} (a : A) : M A := ([], Returned a).

Definition bind {A B} (m : M A) (k : A -> M B) : M B :=
  match m with
  | (log, Returned a) => let (log', r) := k a in ((log ++ log')%list, r)
  | (log, Thrown e) => (log, Thrown e)
  end.

Definition throw {A} (e : exn) : M A := ([], Thrown e).

Definition emit (ev : event) : M unit := ([ev], Returned tt).

(** [try { m } catch (err) { handler err }] *)
Definition try_catch {A} (m : M A) (handler : exn -> M A) : M A :=
  match m with
  | (log, Thrown e) => let (log', r) := handler e in ((log ++ log')%list, r)
  | _ => m
  end.

(** [try { m } finally { cleanup }] *)
Definition try_finally {A} (m : M A) (cleanup : M unit) : M A :=
  let (log, r) := m in
  match cleanup with
  | (log', Returned _) => ((log ++ log')%list, r)
  | (log', Thrown e) => ((log ++ log')%list, Thrown e)
  end.

Notation "x <- m ;; k" := (bind m (fun x => k))
  (at level 61, m at next level, right associativity).
Notation "m ;; k" := (bind m (fun _ => k))
  (at level 61, right associativity).

Definition trace {A} (m : M A) : list event := fst m.

Definition returns {A} (m : M A) : bool :=
  match snd m with
  | Returned _ => true
  | Thrown _ => false
  end.

(** [v.k]: a [TypeError] when [v] is [null] or [undefined]. *)
Definition member (v : jsval) (k : string) : M jsval :=
  if is_nullish v then throw TypeError else ret (get v k).

(** [await res.json()] *)
Definition res_json (res : response) : M jsval :=
  match json res with
  | Some v => ret v
  | None => throw SyntaxError
  end.

Fixpoint mapM {A B} (f : A -> M B) (l : list A) : M (list B) :=
  match l with
  | [] => ret []
  | x :: r => y <- f x ;; ys <- mapM f r ;; ret (y :: ys)
  end.

(** [v.map(f)]: a [TypeError] unless [v] is an array. *)
Definition array_map {B} (v : jsval) (f : jsval -> M B) : M (list B) :=
  match v with
  | JArr items => mapM f items
  | _ => throw TypeError
  end.

Definition toast_success (msg : jsval) : M unit := emit (ToastSuccess msg).
Definition toast_error (msg : jsval) : M unit := emit (ToastError msg).
Definition router_push (href : string) : M unit := emit (RouterPush href).
Definition router_replace (href : string) : M unit := emit (RouterReplace href).
Definition console_error (label : option string) (e : exn) : M unit :=
  emit (ConsoleError label e).
Definition set_state (u : update) : M unit := emit (SetState u).

(** [process.env.NEXT_PUBLIC_API_BASE_URL || 'http://localhost:8000'] *)
Definition API_BASE : string :=
  match NEXT_PUBLIC_API_BASE_URL with
  | Some s => if (s =? "")%string then "http://localhost:8000" else s
  | None => "http://localhost:8000"
  end.

Definition nonempty (s : string) : bool := negb (s =? "")%string.

(** ** Component state *)

(** [ChatPage]: the four [useState] cells. *)
Record ChatState : Type := {
  query : string;
  messages : list message;
  sessionId : string;
  history : list (string * jsval)
}.

(** The effect of one state-setter call on the chat state. *)
Definition chat_apply (st : ChatState) (ev : event) : ChatState :=
  match ev with
  | SetState (SetMessages_append m) =>
      {| query := query st; messages := (messages st ++ [m])%list;
         sessionId := sessionId st; history := history st |}
  | SetState (SetHistory_append p) =>
      {| query := query st; messages := messages st;
         sessionId := sessionId st; history := (history st ++ [p])%list |}
  | SetState (SetQuery q) =>
      {| query := q; messages := messages st;
         sessionId := sessionId st; history := history st |}
  | _ => st
  end.

(** The chat state at the render that follows a handler run. *)
Definition chat_after (st : ChatState) (log : list event) : ChatState :=
  fold_left chat_apply log st.

(** Virtual DOM: text, an embedded expression [{v}], an element. *)
#[local] Unset Elimination Schemes.
Inductive vnode : Type :=
| VText (s : string)
| VExpr (v : jsval)
| VElem (tag : string) (key : option jsval) (children : list vnode).
#[local] Set Elimination Schemes.

Definition th (s : string) : vnode := VElem "th" None [VText s].
Definition td (v : jsval) : vnode := VElem "td" None [VExpr v].

Record next_response : Type := { resp_status : Z; resp_body : jsval }.

(** [NextResponse.json(body, { status })] *)
Definition NextResponse_json (body : jsval) (status : Z) : next_response :=
  {| resp_status := status; resp_body := body |}.

(** ** The handlers *)

Section Handlers.

(** The backend as seen from one handler run. *)
Variable net : request -> fetch_result.

Definition fetch (req : request) : M response :=
  match net req with
  | Rejected => ([Fetch req], Thrown NetworkError)
  | Resolved res => ([Fetch req], Returned res)
  end.

(** *** lib/api: sendChat *)

Record SendChatArgs : Type := {
  arg_query : string;
  arg_session_id : string;
  arg_chat_history : list (string * jsval);
  arg_role : option string
}.

Definition chat_history_json (h : list (string * jsval)) : jsval :=
  JArr (map (fun p => JArr [JStr (fst p); snd p]) h).

Definition sendChat (a : SendChatArgs) : M jsval :=
  let role := match arg_role a with Some r => r | None => "general" end in
  res <- fetch {| url := "http://localhost:8000/chat";
                  method := "POST";
                  headers := [("Content-Type", "application/json")];
                  credentials := None;
                  body := JsonBody (JObj [("query", JStr (arg_query a));
                                          ("session_id", JStr (arg_session_id a));
                                          ("chat_history", chat_history_json (arg_chat_history a));
                                          ("role", JStr role)]) |} ;;
  if negb (ok res)
  then throw (Error ("Chat API failed with " ++ Z_to_string (status res)))
  else (data <- res_json res ;; ret data).

(** *** ChatPage: handleSend *)

Definition handleSend (st : ChatState) : M unit :=
  if negb (nonempty (trim (query st))) then ret tt else
  let userMessage := {| msg_role := "user"; msg_content := JStr (query st) |} in
  set_state (SetMessages_append userMessage) ;;
  try_catch
    (res <- sendChat {| arg_query := query st;
                        arg_session_id := sessionId st;
                        arg_chat_history := history st;
                        arg_role := Some "general" |} ;;
     result <- member res "result" ;;
     let botMessage := {| msg_role := "bot"; msg_content := result |} in
     set_state (SetMessages_append botMessage) ;;
     result' <- member res "result" ;;
     set_state (SetHistory_append (query st, result')))
    (fun err =>
       console_error None err ;;
       set_state (SetMessages_append
                    {| msg_role := "bot"; msg_content := JStr "Error from server." |})) ;;
  set_state (SetQuery "").

(** *** LoginPage: handleLogin *)

Definition handleLogin (username password : string) : M unit :=
  if negb (nonempty username) || negb (nonempty password)
  then toast_error (JStr "Please enter username and password")
  else
    try_catch
      (let formData := [("username", FormText username);
                        ("password", FormText password)] in
       res <- fetch {| url := API_BASE ++ "/login";
                       method := "POST";
                       headers := [];
                       credentials := Some "include";
                       body := FormBody formData |} ;;
       if ok res
       then (toast_success (JStr "Login successful") ;;
             router_replace "/dashboard/kb-upload")
       else (data <- res_json res ;;
             detail <- member data "detail" ;;
             toast_error (or_else detail (JStr "Login failed"))))
      (fun err =>
         console_error None err ;;
         toast_error (JStr "Something went wrong")).

(** *** KBUploadPage *)

Definition check_session_request : request :=
  {| url := API_BASE ++ "/check-session";
     method := "GET";
     headers := [];
     credentials := Some "include";
     body := NoBody |}.

Definition fetchSession : M unit :=
  try_finally
    (try_catch
       (res <- fetch check_session_request ;;
        data <- res_json res ;;
        role <- member data "role" ;;
        if negb (strict_eq_string role "logged_in")
        then router_replace "/login"
        else set_state (SetRole "logged_in"))
       (fun error =>
          console_error (Some "Session check failed:") error ;;
          router_replace "/login"))
    (set_state (SetLoading false)).

Definition handleUpload (file : option File) : M unit :=
  match file with
  | None => toast_error (JStr "Please select a file first.")
  | Some f =>
      let formData := [("file", FormFile f)] in
      res <- fetch {| url := API_BASE ++ "/kb-upload";
                      method := "POST";
                      headers := [];
                      credentials := Some "include";
                      body := FormBody formData |} ;;
      if ok res
      then toast_success (JStr "✅ File uploaded and indexed")
      else (data <- res_json res ;;
            message <- member data "message" ;;
            toast_error
              (JStr ("❌ Upload failed: "
                     ++ to_string (or_else message (JStr "Unknown error")))))
  end.

Definition handleReindex : M unit :=
  res <- fetch {| url := API_BASE ++ "/reindex";
                  method := "POST";
                  headers := [];
                  credentials := Some "include";
                  body := NoBody |} ;;
  if ok res
  then toast_success (JStr "✅ Reindexing triggered")
  else toast_error (JStr "❌ Failed to reindex").

Definition logout_request : request :=
  {| url := API_BASE ++ "/logout";
     method := "POST";
     headers := [];
     credentials := Some "include";
     body := NoBody |}.

Definition KBUploadPage_handleLogout : M unit :=
  fetch logout_request ;;
  toast_success (JStr "Logged out") ;;
  router_push "/login".

(** The page body of [KBUploadPage], by the [loading] flag. *)
Definition KBUploadPage_render (loading : bool) : vnode :=
  if loading
  then VElem "div" None [VElem "p" None [VText "Checking login status..."]]
  else VElem "div" None
         [VElem "div" None [VElem "h2" None [VText "Knowledge Base Upload"];
                            VElem "Button" None [VText "Logout"]];
          VElem "Input" None [];
          VElem "div" None [VElem "Button" None [VText "Upload"];
                            VElem "Button" None [VText "Sync Now"]]].

(** *** DashboardHome *)

Definition DashboardHome_checkSession : M unit :=
  res <- fetch check_session_request ;;
  if ok res
  then (data <- res_json res ;;
        role <- member data "role" ;;
        if strict_eq_string role "logged_in"
        then set_state (SetRole "logged_in")
        else router_push "/login")
  else (toast_error (JStr "Session invalid. Redirecting...") ;;
        router_push "/login").

Definition DashboardHome_render (role : option string) : vnode :=
  match role with
  | None => VElem "p" None [VText "Checking session..."]
  | Some _ =>
      VElem "div" None
        [VElem "h1" None [VText "Welcome to AmityBot Admin"];
         VElem "div" None [VElem "Button" None [VText "Open Chat Interface"];
                           VElem "Button" None [VText "Upload Knowledge Base"]]]
  end.

(** *** DashboardLayout *)

Definition DashboardLayout_checkSession : M unit :=
  res <- fetch check_session_request ;;
  if ok res
  then (data <- res_json res ;;
        role <- member data "role" ;;
        if strict_eq_string role "logged_in"
        then set_state (SetRole "logged_in")
        else router_push "/login")
  else (toast_error (JStr "Session expired. Redirecting...") ;;
        router_push "/login").

Definition DashboardLayout_handleLogout : M unit :=
  fetch logout_request ;;
  toast_success (JStr "Logged out") ;;
  router_push "/login".

(** *** LeadsPage and SyncLogsPage *)

Definition get_request (u : string) : request :=
  {| url := u; method := "GET"; headers := []; credentials := None; body := NoBody |}.

(** The promise chain started by the mount effect; a rejection is not
    handled by anyone. *)
Definition LeadsPage_effect : M unit :=
  res <- fetch (get_request (API_BASE ++ "/leads")) ;;
  data <- res_json res ;;
  set_state (SetLeads (or_else data (JArr []))).

Definition SyncLogsPage_effect : M unit :=
  res <- fetch (get_request (API_BASE ++ "/sync-logs")) ;;
  data <- res_json res ;;
  set_state (SetLogs (or_else data (JArr []))).

End Handlers.

(** [leads.map((lead) => <tr key={lead.id}> ... </tr>)] *)
Definition LeadsPage_rows (leads : jsval) : M (list vnode) :=
  array_map leads (fun lead =>
    key <- member lead "id" ;;
    id <- member lead "id" ;;
    name <- member lead "name" ;;
    status <- member lead "status" ;;
    ret (VElem "tr" (Some key) [td id; td name; td status])).

Definition LeadsPage_render (leads : jsval) : M vnode :=
  rows <- LeadsPage_rows leads ;;
  ret (VElem "div" None
         [VElem "h2" None [VText "Leads"];
          VElem "table" None
            [VElem "thead" None
               [VElem "tr" None [th "ID"; th "Name"; th "Status"]];
             VElem "tbody" None rows]]).

(** [logs.map((log) => <tr key={log.job_id}> ... </tr>)] *)
Definition SyncLogsPage_rows (logs : jsval) : M (list vnode) :=
  array_map logs (fun log =>
    key <- member log "job_id" ;;
    job_id <- member log "job_id" ;;
    status <- member log "status" ;;
    duration <- member log "duration" ;;
    ret (VElem "tr" (Some key) [td job_id; td status; td duration])).

Definition SyncLogsPage_render (logs : jsval) : M vnode :=
  rows <- SyncLogsPage_rows logs ;;
  ret (VElem "div" None
         [VElem "h2" None [VText "Sync Logs"];
          VElem "table" None
            [VElem "thead" None
               [VElem "tr" None [th "Job ID"; th "Status"; th "Duration"]];
             VElem "tbody" None rows]]).

Section Route.

(** The Groq service: what a completion request resolves to. *)
Variable groq : jsval -> string -> result jsval.

(** *** app/api/chat/route.ts: POST *)

(** [groq.chat.completions.create({ messages, model })] *)
Definition groq_create (messages : jsval) (model : string) : M jsval :=
  ([GroqCreate messages model], groq messages model).

(** [await req.json()]; the request is given by what its body parses to. *)
Definition req_json (req : option jsval) : M jsval :=
  match req with
  | Some v => ret v
  | None => throw SyntaxError
  end.

Definition POST (req : option jsval) : M next_response :=
  try_catch
    (body <- req_json req ;;
     m <- member body "messages" ;;
     let messages := or_else m (JArr []) in
     groqMessages <- array_map messages (fun msg =>
       role <- member msg "role" ;;
       content <- member msg "content" ;;
       ret (JObj [("role", role); ("content", content)])) ;;
     chatCompletion <- groq_create (JArr groqMessages) "mixtral-8x7b-32768" ;;
     choices <- member chatCompletion "choices" ;;
     let reply :=
       or_else (opt_get (opt_get (opt_first choices) "message") "content")
               (JStr "") in
     ret (NextResponse_json
            (JObj [("role", JStr "assistant"); ("content", reply)]) 200))
    (fun err =>
       console_error (Some "Chat error:") err ;;
       ret (NextResponse_json (JObj [("error", JStr "Chat failed")]) 500)).

End Route.

(** ** Entry points of the client *)

(** Everything the pages run on a user action or on mount. *)
Inductive page_action : Type :=
| Do_handleSend (st : ChatState)
| Do_handleLogin (username password : string)
| Do_fetchSession
| Do_handleUpload (file : option File)
| Do_handleReindex
| Do_KBUploadPage_handleLogout
| Do_DashboardHome_checkSession
| Do_DashboardLayout_checkSession
| Do_DashboardLayout_handleLogout
| Do_LeadsPage_effect
| Do_SyncLogsPage_effect.

Definition run_page (net : request -> fetch_result) (a : page_action) : M unit :=
  match a with
  | Do_handleSend st => handleSend net st
  | Do_handleLogin username password => handleLogin net username password
  | Do_fetchSession => fetchSession net
  | Do_handleUpload file => handleUpload net file
  | Do_handleReindex => handleReindex net
  | Do_KBUploadPage_handleLogout => KBUploadPage_handleLogout net
  | Do_DashboardHome_checkSession => DashboardHome_checkSession net
  | Do_DashboardLayout_checkSession => DashboardLayout_checkSession net
  | Do_DashboardLayout_handleLogout => DashboardLayout_handleLogout net
  | Do_LeadsPage_effect => LeadsPage_effect net
  | Do_SyncLogsPage_effect => SyncLogsPage_effect net
  end.

(** ** Vocabulary of the properties *)

(** The request [sendChat] builds from its arguments. *)
Definition chat_request (q sid : string) (h : list (string * jsval)) (role : string)
  : request :=
  {| url := "http://localhost:8000/chat";
     method := "POST";
     headers := [("Content-Type", "application/json")];
     credentials := None;
     body := JsonBody (JObj [("query", JStr q);
                             ("session_id", JStr sid);
                             ("chat_history", chat_history_json h);
                             ("role", JStr role)]) |}.

(** The arguments [handleSend] passes to [sendChat]. *)
Definition send_args (st : ChatState) : SendChatArgs :=
  {| arg_query := query st;
     arg_session_id := sessionId st;
     arg_chat_history := history st;
     arg_role := Some "general" |}.

Definition user_message (q : string) : message :=
  {| msg_role := "user"; msg_content := JStr q |}.

Definition bot_message (v : jsval) : message :=
  {| msg_role := "bot"; msg_content := v |}.

Definition error_message : message := bot_message (JStr "Error from server.").

(** The user types [q] into the input box: [onChange] calls [setQuery]. *)
Definition type_query (st : ChatState) (q : string) : ChatState :=
  chat_after st [SetState (SetQuery q)].

(** A call failed: the promise rejected, or the status is not 2xx. *)
Definition failed (o : fetch_result) : bool :=
  match o with
  | Rejected => true
  | Resolved res => negb (ok res)
  end.

(** Actions that contact a service. *)
Definition is_request (ev : event) : bool :=
  match ev with
  | Fetch _ | GroqCreate _ _ => true
  | _ => false
  end.

Definition count_requests (log : list event) : nat :=
  List.length (filter is_request log).

(** Actions by which a failure reaches the user: an error toast, a
    navigation to the login page, a chat bubble. *)
Definition user_facing (ev : event) : bool :=
  match ev with
  | ToastError _ => true
  | RouterPush href | RouterReplace href => (href =? "/login")%string
  | SetState (SetMessages_append _) => true
  | _ => false
  end.

Definition is_toast (ev : event) : bool :=
  match ev with ToastError _ | ToastSuccess _ => true | _ => false end.

Definition is_redirect_to_login (ev : event) : bool :=
  match ev with
  | RouterPush href | RouterReplace href => (href =? "/login")%string
  | _ => false
  end.

(** The endpoints of the backend API. *)
Definition endpoints : list string :=
  ["/chat"; "/leads"; "/sync-logs"; "/kb-upload"; "/reindex"; "/login";
   "/logout"; "/check-session"].

Definition is_endpoint_of (base u : string) : bool :=
  existsb (fun path => (u =? base ++ path)%string) endpoints.

(** A request to the backend API at the configured base. *)
Definition targets_backend (ev : event) : bool :=
  match ev with
  | Fetch req => is_endpoint_of API_BASE (url req)
  | GroqCreate _ _ => false
  | _ => true
  end.

(** The requests of the other handlers. *)
Definition upload_request (f : File) : request :=
  {| url := API_BASE ++ "/kb-upload";
     method := "POST";
     headers := [];
     credentials := Some "include";
     body := FormBody [("file", FormFile f)] |}.

Definition login_request (username password : string) : request :=
  {| url := API_BASE ++ "/login";
     method := "POST";
     headers := [];
     credentials := Some "include";
     body := FormBody [("username", FormText username);
                       ("password", FormText password)] |}.

Definition reindex_request : request :=
  {| url := API_BASE ++ "/reindex";
     method := "POST";
     headers := [];
     credentials := Some "include";
     body := NoBody |}.

(** The request a page action issues, if any. *)
Definition request_of (a : page_action) : option request :=
  match a with
  | Do_handleSend st =>
      if nonempty (trim (query st))
      then Some (chat_request (query st) (sessionId st) (history st) "general")
      else None
  | Do_handleLogin username password =>
      if negb (nonempty username) || negb (nonempty password)
      then None
      else Some (login_request username password)
  | Do_fetchSession
  | Do_DashboardHome_checkSession
  | Do_DashboardLayout_checkSession => Some check_session_request
  | Do_handleUpload None => None
  | Do_handleUpload (Some f) => Some (upload_request f)
  | Do_handleReindex => Some reindex_request
  | Do_KBUploadPage_handleLogout
  | Do_DashboardLayout_handleLogout => Some logout_request
  | Do_LeadsPage_effect => Some (get_request (API_BASE ++ "/leads"))
  | Do_SyncLogsPage_effect => Some (get_request (API_BASE ++ "/sync-logs"))
  end.

(** The table row of one record. *)
Definition lead_row (lead : jsval) : vnode :=
  VElem "tr" (Some (get lead "id"))
    [td (get lead "id"); td (get lead "name"); td (get lead "status")].

Definition log_row (log : jsval) : vnode :=
  VElem "tr" (Some (get log "job_id"))
    [td (get log "job_id"); td (get log "status"); td (get log "duration")].

(** The chat route: the model it asks for, what it forwards, what it answers. *)
Definition model_name : string := "mixtral-8x7b-32768".

(** What the route forwards of one incoming message. *)
Definition groq_message (msg : jsval) : jsval :=
  JObj [("role", get msg "role"); ("content", get msg "content")].

Definition assistant_reply (reply : jsval) : next_response :=
  {| resp_status := 200;
     resp_body := JObj [("role", JStr "assistant"); ("content", reply)] |}.

Definition chat_failed : next_response :=
  {| resp_status := 500; resp_body := JObj [("error", JStr "Chat failed")] |}.

(** [completion.choices?.[0]?.message?.content || ''] *)
Definition reply_of (completion : jsval) : jsval :=
  or_else (opt_get (opt_get (opt_first (get completion "choices")) "message") "content")
          (JStr "").

(** ** Sample inputs *)

Definition sample_state : ChatState :=
  {| query := "What is Amity?"; messages := []; sessionId := "session-1";
     history := [] |}.

Definition sample_file : File :=
  {| file_name := "handbook.md"; file_data := "# Handbook" |}.

(** A backend that answers every request with the given status and body. *)
Definition answering (st : Z) (b : option jsval) : request -> fetch_result :=
  fun _ => Resolved {| status := st; json := b |}.

(** A backend that cannot be reached. *)
Definition unreachable : request -> fetch_result := fun _ => Rejected.


Definition sample_reply : jsval := JObj [("result", JStr "A university.")].

Definition sample_leads : list jsval :=
  [JObj [("id", JStr "L1"); ("name", JStr "Ada"); ("status", JStr "new")];
   JObj [("id", JStr "L2"); ("name", JStr "Bob")]].


Definition sample_completion : jsval :=
  JObj [("choices",
         JArr [JObj [("message", JObj [("content", JStr "Hello")])]])].

(** ** The rest of the pages *)

(** *** ChatPage: the message list *)

(** One rendered message: the outer [div] with its key and class, the
    [strong] label and the content. *)
Record bubble : Type := {
  bubble_key : nat;
  bubble_class : string;
  bubble_label : string;
  bubble_content : jsval
}.

(** [messages.map((m, i) => ...)], from index [i] on. *)
Fixpoint ChatPage_messages_from (i : nat) (ms : list message) : list bubble :=
  match ms with
  | [] => []
  | m :: rest =>
      {| bubble_key := i;
         bubble_class := if (msg_role m =? "user")%string
                         then "text-right" else "text-left";
         bubble_label := if (msg_role m =? "user")%string
                         then "You" else "AmityBot";
         bubble_content := msg_content m |}
      :: ChatPage_messages_from (S i) rest
  end.

Definition ChatPage_messages (ms : list message) : list bubble :=
  ChatPage_messages_from 0 ms.

(** The user types [q] and clicks Send, and the call runs to its end before
    anything else happens; the state at the render that follows. *)
Definition send (net : request -> fetch_result) (q : string) (st : ChatState)
  : ChatState :=
  chat_after (type_query st q) (trace (handleSend net (type_query st q))).

(** A conversation: one query and one backend behaviour per turn. *)
Definition chat_session (st : ChatState)
    (turns : list (string * (request -> fetch_result))) : ChatState :=
  fold_left (fun st t => send (snd t) (fst t) st) turns st.

(** Everything logged during a conversation. *)
Fixpoint session_log (st : ChatState)
    (turns : list (string * (request -> fetch_result))) : list event :=
  match turns with
  | [] => []
  | (q, net) :: rest =>
      (trace (handleSend net (type_query st q))
       ++ session_log (send net q st) rest)%list
  end.

(** The turns whose query is not blank. *)
Definition spoken (turns : list (string * (request -> fetch_result))) : nat :=
  List.length (filter (fun t => nonempty (trim (fst t))) turns).

(** The [session_id] field of a chat request body. *)
Definition session_id_of (req : request) : jsval :=
  match body req with
  | JsonBody v => get v "session_id"
  | _ => JUndefined
  end.

(** *** The [role] and [loading] cells of the gated pages *)

(** [role] of DashboardHome and DashboardLayout ([null] at first). *)
Definition role_after (role : option string) (log : list event) : option string :=
  fold_left (fun r ev => match ev with
                         | SetState (SetRole r') => Some r'
                         | _ => r
                         end) log role.

(** [loading] of KBUploadPage ([true] at first). *)
Definition loading_after (loading : bool) (log : list event) : bool :=
  fold_left (fun b ev => match ev with
                         | SetState (SetLoading b') => b'
                         | _ => b
                         end) log loading.

(** [leads] of LeadsPage and [logs] of SyncLogsPage ([[]] at first). *)
Definition leads_after (leads : jsval) (log : list event) : jsval :=
  fold_left (fun v ev => match ev with
                         | SetState (SetLeads v') => v'
                         | _ => v
                         end) log leads.

Definition logs_after (logs : jsval) (log : list event) : jsval :=
  fold_left (fun v ev => match ev with
                         | SetState (SetLogs v') => v'
                         | _ => v
                         end) log logs.

(** *** DashboardLayout: the frame around the dashboard pages *)

Definition DashboardLayout_render (role : option string) (children : vnode) : vnode :=
  match role with
  | None => VElem "p" None [VText "Checking session..."]
  | Some _ =>
      VElem "div" None
        [VElem "nav" None
           [VElem "div" None [VElem "Link" None [VText "Home"];
                              VElem "Link" None [VText "Chat"];
                              VElem "Link" None [VText "KB Upload"]];
            VElem "button" None [VText "Logout"]];
         VElem "main" None [children]]
  end.

(** *** Sidebar *)

Definition navItems : list (string * string) :=
  [("/dashboard/kb-upload", "KB Upload");
   ("/dashboard/chat", "Chat");
   ("/dashboard/leads", "Leads");
   ("/dashboard/sync-logs", "Sync Logs")].

(** One [Link] of the sidebar: key, target, the arguments handed to [cn]
    and the label. *)
Record nav_link : Type := {
  link_key : string;
  link_href : string;
  link_classes : list jsval;
  link_label : string
}.

(** [navItems.map(({ href, label }) => <Link ...>{label}</Link>)] *)
Definition Sidebar (pathname : string) : list nav_link :=
  map (fun item =>
         let href := fst item in
         let label := snd item in
         {| link_key := href;
            link_href := href;
            link_classes :=
              [JStr "block p-2 rounded hover:bg-gray-100";
               if (pathname =? href)%string
               then JStr "bg-gray-200 font-semibold"
               else JBool false];
            link_label := label |})
      navItems.

(** A link is highlighted when [cn] receives the highlight classes. *)
Definition highlighted (l : nav_link) : bool :=
  existsb (fun c => strict_eq_string c "bg-gray-200 font-semibold") (link_classes l).

(** A request reaches Groq only from a body like this one: JSON, not
    [null], whose [messages] (or the default) is an array without [null]s. *)
Definition forwardable (req : option jsval) (items : list jsval) : Prop :=
  exists body,
    req = Some body
    /\ is_nullish body = false
    /\ or_else (get body "messages") (JArr []) = JArr items
    /\ Forall (fun r => is_nullish r = false) items.

(** The body of a response carries the role ["logged_in"]. *)
Definition says_logged_in (o : fetch_result) : bool :=
  match o with
  | Resolved res =>
      match json res with
      | Some data => strict_eq_string (get data "role") "logged_in"
      | None => false
      end
  | Rejected => false
  end.

(** The same, in a response that is 2xx. *)
Definition grants_session (o : fetch_result) : bool :=
  negb (failed o) && says_logged_in o.

(** What a session check decides: it sets the role or it navigates. *)
Definition is_gate_decision (ev : event) : bool :=
  match ev with
  | SetState (SetRole _) | RouterPush _ | RouterReplace _ => true
  | _ => false
  end.

(** [ChatPage] as mounted: empty input, no messages, a fresh session id,
    no history. *)
Definition ChatPage_initial (uuid : string) : ChatState :=
  {| query := ""; messages := []; sessionId := uuid; history := [] |}.

(** *** Sends that overlap *)

(** The Send button stays enabled while a request is in flight, so a second
    [handleSend] can start before the first one resumes.  [handleSend] is
    cut at its [await]: the part that runs at the click, and the part that
    runs once [sendChat] has settled. *)

(** [handleSend] after the guard, up to the call of [sendChat]. *)
Definition handleSend_click (st : ChatState) : M unit :=
  let userMessage := {| msg_role := "user"; msg_content := JStr (query st) |} in
  set_state (SetMessages_append userMessage).

(** [handleSend] from the [await] on; [sent] is how [sendChat] settled.  The
    query is the one of the render in which Send was clicked. *)
Definition handleSend_resume (st : ChatState) (sent : M jsval) : M unit :=
  try_catch
    (res <- sent ;;
     result <- member res "result" ;;
     let botMessage := {| msg_role := "bot"; msg_content := result |} in
     set_state (SetMessages_append botMessage) ;;
     result' <- member res "result" ;;
     set_state (SetHistory_append (query st, result')))
    (fun err =>
       console_error None err ;;
       set_state (SetMessages_append
                    {| msg_role := "bot"; msg_content := JStr "Error from server." |})) ;;
  set_state (SetQuery "").

(** A call of [handleSend] that waits for its answer: the state of the
    render it was started from, and how its [sendChat] will settle. *)
Record in_flight : Type := { captured : ChatState; outcome : result jsval }.

(** The chat page between events: the current state and the calls that
    wait. *)
Record page : Type := { shown : ChatState; waiting : list in_flight }.

(** What can happen next: the user types, the user clicks Send (the
    backend is given by [net]), the [k]-th waiting call resumes. *)
Inductive action : Type :=
| Types (q : string)
| Clicks (net : request -> fetch_result)
| Settles (k : nat).

Definition act (p : page) (a : action) : page :=
  match a with
  | Types q => {| shown := type_query (shown p) q; waiting := waiting p |}
  | Clicks net =>
      if nonempty (trim (query (shown p)))
      then {| shown := chat_after (shown p) (trace (handleSend_click (shown p)));
              waiting :=
                (waiting p
                 ++ [{| captured := shown p;
                        outcome := snd (sendChat net (send_args (shown p))) |}])%list |}
      else p
  | Settles k =>
      match nth_error (waiting p) k with
      | Some w =>
          {| shown := chat_after (shown p)
                        (trace (handleSend_resume (captured w) ([], outcome w)));
             waiting := (firstn k (waiting p) ++ skipn (S k) (waiting p))%list |}
      | None => p
      end
  end.

(** The page after a sequence of such events, from the page as mounted. *)
Definition page_after (uuid : string) (events : list action) : page :=
  fold_left act events {| shown := ChatPage_initial uuid; waiting := [] |}.

(** Every remembered exchange is on display: the query as a user message
    and, somewhere after it, the reply as a bot message. *)
Definition history_shown (st : ChatState) : Prop :=
  forall q r, In (q, r) (history st) ->
    exists l1 l2 l3,
      messages st
      = (l1 ++ {| msg_role := "user"; msg_content := JStr q |}
            :: l2 ++ {| msg_role := "bot"; msg_content := r |} :: l3)%list.

(** The query of every waiting call is on display. *)
Definition waiting_shown (p : page) : Prop :=
  forall w, In w (waiting p) ->
    exists l1 l2,
      messages (shown p)
      = (l1 ++ {| msg_role := "user"; msg_content := JStr (query (captured w)) |}
            :: l2)%list.

(** ** Proof automation *)

(** Case analysis on everything a handler asks of a response. *)
Ltac backend_cases net :=
  repeat first
    [ progress simpl
    | match goal with
      | |- context [net ?r] => destruct (net r) as [|?res]
      | |- context [ok ?r] => destruct (ok r)
      | |- context [json ?r] => destruct (json r) as [?data|]
      | |- context [is_nullish ?d] => destruct (is_nullish d)
      | |- context [strict_eq_string ?v ?l] => destruct (strict_eq_string v l)
      end ].

(** ** Equations of the monad *)

Lemma bind_ret_l {A B} (a : A) (k : A -> M B) : bind (ret a) k = k a.
Proof. unfold bind, ret. destruct (k a). reflexivity. Qed.

Lemma bind_thrown {A B} (log : list event) (e : exn) (k : A -> M B) :
  bind (log, Thrown e) k = (log, Thrown e).
Proof. reflexivity. Qed.

Lemma bind_returned {A B} (log : list event) (a : A) (k : A -> M B) :
  bind (log, Returned a) k = ((log ++ trace (k a))%list, snd (k a)).
Proof. unfold bind, trace. destruct (k a). reflexivity. Qed.

Lemma try_catch_returned {A} (log : list event) (a : A) (h : exn -> M A) :
  try_catch (log, Returned a) h = (log, Returned a).
Proof. reflexivity. Qed.

Lemma try_catch_thrown {A} (log : list event) (e : exn) (h : exn -> M A) :
  try_catch (log, Thrown e) h = ((log ++ trace (h e))%list, snd (h e)).
Proof. unfold try_catch, trace. destruct (h e). reflexivity. Qed.

Lemma fetch_trace (net : request -> fetch_result) (req : request) :
  trace (fetch net req) = [Fetch req].
Proof. unfold fetch. destruct (net req); reflexivity. Qed.

Lemma count_requests_app (l1 l2 : list event) :
  count_requests (l1 ++ l2) = (count_requests l1 + count_requests l2)%nat.
Proof. unfold count_requests. rewrite filter_app, length_app. reflexivity. Qed.

Lemma chat_after_app (st : ChatState) (l1 l2 : list event) :
  chat_after st (l1 ++ l2) = chat_after (chat_after st l1) l2.
Proof. unfold chat_after. apply fold_left_app. Qed.

(** ** sendChat and handleSend, case by case *)

Section ChatRuns.

Variable net : request -> fetch_result.
Variable st : ChatState.

Let req : request :=
  chat_request (query st) (sessionId st) (history st) "general".

Lemma sendChat_rejected :
  net req = Rejected ->
  sendChat net (send_args st) = ([Fetch req], Thrown NetworkError).
Proof.
  intros Hnet. unfold sendChat, fetch, send_args; simpl.
  unfold req, chat_request in Hnet. rewrite Hnet. reflexivity.
Qed.

Lemma sendChat_not_ok (res : response) :
  net req = Resolved res -> ok res = false ->
  sendChat net (send_args st)
  = ([Fetch req],
     Thrown (Error ("Chat API failed with " ++ Z_to_string (status res)))).
Proof.
  intros Hnet Hok. unfold sendChat, fetch, send_args; simpl.
  unfold req, chat_request in Hnet. rewrite Hnet. simpl. rewrite Hok. reflexivity.
Qed.

Lemma sendChat_not_json (res : response) :
  net req = Resolved res -> ok res = true -> json res = None ->
  sendChat net (send_args st) = ([Fetch req], Thrown SyntaxError).
Proof.
  intros Hnet Hok Hjson. unfold sendChat, fetch, send_args, res_json; simpl.
  unfold req, chat_request in Hnet. rewrite Hnet. simpl. rewrite Hok, Hjson. reflexivity.
Qed.

Lemma sendChat_ok (res : response) (data : jsval) :
  net req = Resolved res -> ok res = true -> json res = Some data ->
  sendChat net (send_args st) = ([Fetch req], Returned data).
Proof.
  intros Hnet Hok Hjson. unfold sendChat, fetch, send_args, res_json; simpl.
  unfold req, chat_request in Hnet. rewrite Hnet. simpl. rewrite Hok, Hjson. reflexivity.
Qed.

(** [sendChat] always issues exactly its one request. *)
Lemma sendChat_trace (a : SendChatArgs) :
  trace (sendChat net a)
  = [Fetch (chat_request (arg_query a) (arg_session_id a) (arg_chat_history a)
              match arg_role a with Some r => r | None => "general" end)].
Proof.
  unfold sendChat, fetch, chat_request.
  match goal with |- context [net ?r] => destruct (net r) as [|res] end;
    [reflexivity|].
  simpl. destruct (ok res); [|reflexivity].
  simpl. unfold res_json. destruct (json res); reflexivity.
Qed.

Hypothesis Hquery : nonempty (trim (query st)) = true.

(** The run of [handleSend] is determined by how [sendChat] ends. *)
Lemma handleSend_returned (data : jsval) :
  sendChat net (send_args st) = ([Fetch req], Returned data) ->
  is_nullish data = false ->
  handleSend net st
  = ([SetState (SetMessages_append (user_message (query st)));
      Fetch req;
      SetState (SetMessages_append (bot_message (get data "result")));
      SetState (SetHistory_append (query st, get data "result"));
      SetState (SetQuery "")],
     Returned tt).
Proof.
  intros Hsend Hdata. unfold handleSend. rewrite Hquery. simpl.
  fold (send_args st). rewrite Hsend. simpl. unfold member. rewrite Hdata.
  reflexivity.
Qed.

Lemma handleSend_returned_null (data : jsval) :
  sendChat net (send_args st) = ([Fetch req], Returned data) ->
  is_nullish data = true ->
  handleSend net st
  = ([SetState (SetMessages_append (user_message (query st)));
      Fetch req;
      ConsoleError None TypeError;
      SetState (SetMessages_append error_message);
      SetState (SetQuery "")],
     Returned tt).
Proof.
  intros Hsend Hdata. unfold handleSend. rewrite Hquery. simpl.
  fold (send_args st). rewrite Hsend. simpl. unfold member. rewrite Hdata.
  reflexivity.
Qed.

Lemma handleSend_thrown (e : exn) :
  sendChat net (send_args st) = ([Fetch req], Thrown e) ->
  handleSend net st
  = ([SetState (SetMessages_append (user_message (query st)));
      Fetch req;
      ConsoleError None e;
      SetState (SetMessages_append error_message);
      SetState (SetQuery "")],
     Returned tt).
Proof.
  intros Hsend. unfold handleSend. rewrite Hquery. simpl.
  fold (send_args st). rewrite Hsend. reflexivity.
Qed.

(** Whatever the backend does, [sendChat] ends in one of two ways. *)
Lemma sendChat_ends :
  {data | sendChat net (send_args st) = ([Fetch req], Returned data)}
  + {e | sendChat net (send_args st) = ([Fetch req], Thrown e)}.
Proof.
  destruct (net req) as [|res] eqn:Hnet.
  - right. eexists. apply sendChat_rejected, Hnet.
  - destruct (ok res) eqn:Hok.
    + destruct (json res) as [data|] eqn:Hjson.
      * left. eexists. eapply sendChat_ok; eassumption.
      * right. eexists. eapply sendChat_not_json; eassumption.
    + right. eexists. eapply sendChat_not_ok; eassumption.
Qed.

End ChatRuns.

Lemma handleSend_blank (net : request -> fetch_result) (st : ChatState) :
  nonempty (trim (query st)) = false -> handleSend net st = ([], Returned tt).
Proof. intros Hq. unfold handleSend. rewrite Hq. reflexivity. Qed.

(** The chat state after each kind of run. *)
Lemma chat_after_reply (st : ChatState) (req : request) (v : jsval) :
  chat_after st
    [SetState (SetMessages_append (user_message (query st)));
     Fetch req;
     SetState (SetMessages_append (bot_message v));
     SetState (SetHistory_append (query st, v));
     SetState (SetQuery "")]
  = {| query := "";
       messages := (messages st ++ [user_message (query st); bot_message v])%list;
       sessionId := sessionId st;
       history := (history st ++ [(query st, v)])%list |}.
Proof.
  unfold chat_after; simpl. rewrite <- app_assoc. reflexivity.
Qed.

Lemma chat_after_error (st : ChatState) (req : request) (e : exn) :
  chat_after st
    [SetState (SetMessages_append (user_message (query st)));
     Fetch req;
     ConsoleError None e;
     SetState (SetMessages_append error_message);
     SetState (SetQuery "")]
  = {| query := "";
       messages := (messages st ++ [user_message (query st); error_message])%list;
       sessionId := sessionId st;
       history := history st |}.
Proof.
  unfold chat_after; simpl. rewrite <- app_assoc. reflexivity.
Qed.

Lemma app_one_neq {A} (l : list A) (x : A) : l <> (l ++ [x])%list.
Proof.
  intros H. apply (f_equal (@List.length A)) in H.
  rewrite length_app in H. simpl in H. lia.
Qed.

(** After a send with a query that is not blank, the state is one of two. *)
Lemma handleSend_state_cases (net : request -> fetch_result) (st : ChatState) :
  nonempty (trim (query st)) = true ->
  (exists data,
     snd (sendChat net (send_args st)) = Returned data
     /\ is_nullish data = false
     /\ chat_after st (trace (handleSend net st))
        = {| query := "";
             messages := (messages st ++ [user_message (query st);
                                          bot_message (get data "result")])%list;
             sessionId := sessionId st;
             history := (history st ++ [(query st, get data "result")])%list |})
  \/ ((forall data, snd (sendChat net (send_args st)) = Returned data ->
                    is_nullish data = true)
      /\ chat_after st (trace (handleSend net st))
         = {| query := "";
              messages := (messages st ++ [user_message (query st);
                                           error_message])%list;
              sessionId := sessionId st;
              history := history st |}).
Proof.
  intros Hq.
  destruct (sendChat_ends net st) as [[d Hd]|[e He]].
  - destruct (is_nullish d) eqn:Hnull.
    + right. split.
      * intros data Hdata. rewrite Hd in Hdata. inversion Hdata; subst. exact Hnull.
      * rewrite (handleSend_returned_null net st Hq d Hd Hnull).
        apply chat_after_error.
    + left. exists d. split; [rewrite Hd; reflexivity|]. split; [exact Hnull|].
      rewrite (handleSend_returned net st Hq d Hd Hnull).
      apply chat_after_reply.
  - right. split.
    + intros data Hdata. rewrite He in Hdata. discriminate.
    + rewrite (handleSend_thrown net st Hq e He). apply chat_after_error.
Qed.

(** ** Chat *)

(** C1, as the code has it.  For a query that is not blank, [handleSend]
    first appends the user message to the displayed messages and then calls
    the chat endpoint, with no further request.  When the endpoint answers
    2xx with a JSON body other than [null], it appends that body's [result]
    as a bot message and the pair [(query, result)] to the history, and the
    extended history is the [chat_history] of the request of the next
    send. *)
Theorem handleSend_exchange
    (net net' : request -> fetch_result) (st : ChatState)
    (res : response) (data : jsval) (q' : string) :
  nonempty (trim (query st)) = true ->
  let req :=
    {| url := "http://localhost:8000/chat";
       method := "POST";
       headers := [("Content-Type", "application/json")];
       credentials := None;
       body := JsonBody
                 (JObj [("query", JStr (query st));
                        ("session_id", JStr (sessionId st));
                        ("chat_history",
                         JArr (map (fun p => JArr [JStr (fst p); snd p]) (history st)));
                        ("role", JStr "general")]) |} in
  let reply := get data "result" in
  let st1 := chat_after st (trace (handleSend net st)) in
  (exists rest,
     trace (handleSend net st)
     = SetState (SetMessages_append {| msg_role := "user";
                                       msg_content := JStr (query st) |})
       :: Fetch req :: rest
     /\ count_requests rest = 0%nat)
  /\ (net req = Resolved res -> ok res = true -> json res = Some data ->
      is_nullish data = false ->
      trace (handleSend net st)
      = [SetState (SetMessages_append {| msg_role := "user";
                                         msg_content := JStr (query st) |});
         Fetch req;
         SetState (SetMessages_append {| msg_role := "bot"; msg_content := reply |});
         SetState (SetHistory_append (query st, reply));
         SetState (SetQuery "")]
      /\ messages st1
         = (messages st
            ++ [{| msg_role := "user"; msg_content := JStr (query st) |};
                {| msg_role := "bot"; msg_content := reply |}])%list
      /\ history st1 = (history st ++ [(query st, reply)])%list
      /\ (nonempty (trim q') = true ->
          exists rest',
            trace (handleSend net' (type_query st1 q'))
            = SetState (SetMessages_append {| msg_role := "user";
                                              msg_content := JStr q' |})
              :: Fetch
                   {| url := "http://localhost:8000/chat";
                      method := "POST";
                      headers := [("Content-Type", "application/json")];
                      credentials := None;
                      body :=
                        JsonBody
                          (JObj [("query", JStr q');
                                 ("session_id", JStr (sessionId st));
                                 ("chat_history",
                                  JArr (map (fun p => JArr [JStr (fst p); snd p])
                                          (history st ++ [(query st, reply)])));
                                 ("role", JStr "general")]) |}
              :: rest')).
Proof.
  intros Hq req reply st1. split.
  - destruct (sendChat_ends net st) as [[d Hd]|[e He]].
    + destruct (is_nullish d) eqn:Hnull.
      * rewrite (handleSend_returned_null net st Hq d Hd Hnull).
        eexists; split; reflexivity.
      * rewrite (handleSend_returned net st Hq d Hd Hnull).
        eexists; split; reflexivity.
    + rewrite (handleSend_thrown net st Hq e He). eexists; split; reflexivity.
  - intros Hnet Hok Hjson Hnull.
    pose proof (sendChat_ok net st res data Hnet Hok Hjson) as Hsend.
    pose proof (handleSend_returned net st Hq data Hsend Hnull) as Hrun.
    assert (Hst1 : st1 = chat_after st (trace (handleSend net st))) by reflexivity.
    rewrite Hrun in Hst1 |- *. unfold trace in Hst1; simpl fst in Hst1.
    rewrite chat_after_reply in Hst1. fold reply in Hst1.
    split; [reflexivity|]. split; [rewrite Hst1; reflexivity|].
    split; [rewrite Hst1; reflexivity|].
    intros Hq'. rewrite Hst1.
    unfold type_query, chat_after; simpl.
    set (st2 := {| query := q'; messages := _; sessionId := _; history := _ |}).
    assert (Hq2 : nonempty (trim (query st2)) = true) by exact Hq'.
    destruct (sendChat_ends net' st2) as [[d Hd]|[e He]].
    + destruct (is_nullish d) eqn:Hd0.
      * rewrite (handleSend_returned_null net' st2 Hq2 d Hd Hd0).
        eexists; reflexivity.
      * rewrite (handleSend_returned net' st2 Hq2 d Hd Hd0).
        eexists; reflexivity.
    + rewrite (handleSend_thrown net' st2 Hq2 e He). eexists; reflexivity.
Qed.

(** C2. Every request of [sendChat] is a POST to the [/chat] endpoint whose
    JSON body has exactly the fields [query], [session_id], [chat_history]
    and [role], the last one being ["general"] when the caller gives none;
    [sendChat] hands the parsed response to its caller, and [handleSend]
    uses its [result] field, and nothing else, as the reply. *)
Theorem sendChat_request_and_result
    (net : request -> fetch_result) (a : SendChatArgs)
    (st : ChatState) (res : response) (data : jsval) :
  let role := match arg_role a with Some r => r | None => "general" end in
  trace (sendChat net a)
  = [Fetch {| url := "http://localhost:8000/chat";
              method := "POST";
              headers := [("Content-Type", "application/json")];
              credentials := None;
              body := JsonBody
                        (JObj [("query", JStr (arg_query a));
                               ("session_id", JStr (arg_session_id a));
                               ("chat_history", chat_history_json (arg_chat_history a));
                               ("role", JStr role)]) |}]
  /\ (net (chat_request (query st) (sessionId st) (history st) "general")
      = Resolved res ->
      ok res = true -> json res = Some data ->
      snd (sendChat net (send_args st)) = Returned data
      /\ (nonempty (trim (query st)) = true -> is_nullish data = false ->
          filter (fun ev => negb (is_request ev)) (trace (handleSend net st))
          = [SetState (SetMessages_append (user_message (query st)));
             SetState (SetMessages_append (bot_message (get data "result")));
             SetState (SetHistory_append (query st, get data "result"));
             SetState (SetQuery "")])).
Proof.
  intros role. split.
  - apply sendChat_trace.
  - intros Hnet Hok Hjson.
    pose proof (sendChat_ok net st res data Hnet Hok Hjson) as Hsend.
    split.
    + rewrite Hsend. reflexivity.
    + intros Hq Hnull.
      rewrite (handleSend_returned net st Hq data Hsend Hnull). reflexivity.
Qed.

(** C8, as the code has it.  The history grows by exactly one pair if and
    only if the query is not blank and [sendChat] returned a value that is
    not [null]; it then grows by [(query, result)].  In every other run that
    reaches the endpoint ([sendChat] throws, or returns [null]) the history
    is unchanged and the display gains the user message followed by the
    error bot message only. *)
Theorem history_grows_iff_reply_read
    (net : request -> fetch_result) (st : ChatState) :
  let st1 := chat_after st (trace (handleSend net st)) in
  let reply_read :=
    exists data, snd (sendChat net (send_args st)) = Returned data
                 /\ is_nullish data = false in
  ((exists p, history st1 = (history st ++ [p])%list)
   <-> nonempty (trim (query st)) = true /\ reply_read)
  /\ (forall data,
        nonempty (trim (query st)) = true ->
        snd (sendChat net (send_args st)) = Returned data ->
        is_nullish data = false ->
        history st1 = (history st ++ [(query st, get data "result")])%list
        /\ messages st1
           = (messages st ++ [user_message (query st);
                              bot_message (get data "result")])%list)
  /\ (nonempty (trim (query st)) = true -> ~ reply_read ->
      history st1 = history st
      /\ messages st1
         = (messages st ++ [user_message (query st); error_message])%list).
Proof.
  intros st1 reply_read.
  destruct (nonempty (trim (query st))) eqn:Hq.
  - destruct (handleSend_state_cases net st Hq) as [[d [Hd [Hnull Hst]]]|[Hnone Hst]];
      fold st1 in Hst.
    + assert (Hyes : reply_read) by (exists d; split; assumption).
      split; [split|split].
      * intros _. split; [reflexivity|exact Hyes].
      * intros _. eexists. rewrite Hst. reflexivity.
      * intros data _ Hdata _. rewrite Hd in Hdata. inversion Hdata; subst data.
        rewrite Hst. split; reflexivity.
      * intros _ Hno. contradiction.
    + assert (Hno : ~ reply_read).
      { intros [d [Hd Hnull]]. rewrite (Hnone d Hd) in Hnull. discriminate. }
      split; [split|split].
      * intros [p Hp]. rewrite Hst in Hp. simpl in Hp.
        exfalso. exact (app_one_neq _ _ Hp).
      * intros [_ Hr]. contradiction.
      * intros data _ Hdata Hnull. rewrite (Hnone data Hdata) in Hnull. discriminate.
      * intros _ _. rewrite Hst. split; reflexivity.
  - assert (Hst : st1 = st).
    { unfold st1. rewrite (handleSend_blank net st Hq). reflexivity. }
    split; [split|split].
    + intros [p Hp]. rewrite Hst in Hp. exfalso. exact (app_one_neq _ _ Hp).
    + intros [Hf _]. discriminate.
    + intros data Hf. discriminate.
    + intros Hf. discriminate.
Qed.

(** ** Guards on empty inputs *)

(** C10. With an empty username or an empty password [handleLogin] shows an
    error toast and does nothing else; with no file selected [handleUpload]
    shows an error toast and does nothing else.  Neither run contains a
    request. *)
Theorem empty_inputs_send_nothing
    (net : request -> fetch_result) (username password : string) :
  (username = "" \/ password = "" ->
   handleLogin net username password
   = ([ToastError (JStr "Please enter username and password")], Returned tt)
   /\ count_requests (trace (handleLogin net username password)) = 0%nat)
  /\ handleUpload net None
     = ([ToastError (JStr "Please select a file first.")], Returned tt)
  /\ count_requests (trace (handleUpload net None)) = 0%nat.
Proof.
  split; [|split; reflexivity].
  intros Hempty.
  assert (Hguard : negb (nonempty username) || negb (nonempty password) = true).
  { destruct Hempty as [-> | ->].
    - reflexivity.
    - apply orb_true_r. }
  unfold handleLogin. rewrite Hguard. split; reflexivity.
Qed.

(** ** Session gate *)

Section SessionGate.

Variable net : request -> fetch_result.

(** The KB upload page catches a rejected session check and redirects. *)
Lemma fetchSession_rejected :
  net check_session_request = Rejected ->
  fetchSession net
  = ([Fetch check_session_request;
      ConsoleError (Some "Session check failed:") NetworkError;
      RouterReplace "/login";
      SetState (SetLoading false)],
     Returned tt).
Proof.
  intros Hnet. unfold fetchSession, fetch. rewrite Hnet. reflexivity.
Qed.

(** It redirects whenever the body carries no role ["logged_in"] ... *)
Lemma fetchSession_other_role (res : response) (data : jsval) :
  net check_session_request = Resolved res ->
  json res = Some data -> is_nullish data = false ->
  strict_eq_string (get data "role") "logged_in" = false ->
  fetchSession net
  = ([Fetch check_session_request; RouterReplace "/login";
      SetState (SetLoading false)],
     Returned tt).
Proof.
  intros Hnet Hjson Hnull Hrole.
  unfold fetchSession, fetch, res_json, member.
  rewrite Hnet; simpl. rewrite Hjson; simpl. rewrite Hnull; simpl.
  rewrite Hrole. reflexivity.
Qed.

(** ... and stays, whatever the status, when it does. *)
Lemma fetchSession_logged_in (res : response) (data : jsval) :
  net check_session_request = Resolved res ->
  json res = Some data ->
  strict_eq_string (get data "role") "logged_in" = true ->
  fetchSession net
  = ([Fetch check_session_request; SetState (SetRole "logged_in");
      SetState (SetLoading false)],
     Returned tt).
Proof.
  intros Hnet Hjson Hrole.
  assert (Hnull : is_nullish data = false).
  { destruct data; try reflexivity; discriminate. }
  unfold fetchSession, fetch, res_json, member.
  rewrite Hnet; simpl. rewrite Hjson; simpl. rewrite Hnull; simpl.
  rewrite Hrole. reflexivity.
Qed.

(** The dashboard home redirects on a response that is not 2xx ... *)
Lemma DashboardHome_checkSession_not_ok (res : response) :
  net check_session_request = Resolved res -> ok res = false ->
  DashboardHome_checkSession net
  = ([Fetch check_session_request;
      ToastError (JStr "Session invalid. Redirecting...");
      RouterPush "/login"],
     Returned tt).
Proof.
  intros Hnet Hok. unfold DashboardHome_checkSession, fetch.
  rewrite Hnet; simpl. rewrite Hok. reflexivity.
Qed.

(** ... and on a role other than ["logged_in"], and stays otherwise. *)
Lemma DashboardHome_checkSession_ok (res : response) (data : jsval) :
  net check_session_request = Resolved res -> ok res = true ->
  json res = Some data -> is_nullish data = false ->
  DashboardHome_checkSession net
  = ([Fetch check_session_request;
      if strict_eq_string (get data "role") "logged_in"
      then SetState (SetRole "logged_in")
      else RouterPush "/login"],
     Returned tt).
Proof.
  intros Hnet Hok Hjson Hnull.
  unfold DashboardHome_checkSession, fetch, res_json, member.
  rewrite Hnet; simpl. rewrite Hok, Hjson; simpl. rewrite Hnull; simpl.
  destruct (strict_eq_string _ _); reflexivity.
Qed.

End SessionGate.

(** C3, at the input where the code departs from it.  When the backend
    cannot be reached, the session check of the dashboard home (and of the
    dashboard layout, which has the same body) ends with the rejection
    unhandled right after its request: nothing redirects to the login page
    and the role stays unset, so the page keeps showing the
    "Checking session..." placeholder. *)
Theorem checkSession_unreachable_no_redirect :
  DashboardHome_checkSession unreachable
  = ([Fetch check_session_request], Thrown NetworkError)
  /\ DashboardLayout_checkSession unreachable
     = ([Fetch check_session_request], Thrown NetworkError)
  /\ existsb is_redirect_to_login
       (trace (DashboardHome_checkSession unreachable)) = false
  /\ DashboardHome_render None = VElem "p" None [VText "Checking session..."].
Proof. repeat split. Qed.

(** ** KB upload *)

Section Upload.

Variable net : request -> fetch_result.
Variable f : File.

(** A 2xx response gives the success toast. *)
Lemma handleUpload_ok (res : response) :
  net (upload_request f) = Resolved res -> ok res = true ->
  handleUpload net (Some f)
  = ([Fetch (upload_request f);
      ToastSuccess (JStr "✅ File uploaded and indexed")],
     Returned tt).
Proof.
  intros Hnet Hok. unfold handleUpload, fetch.
  unfold upload_request in Hnet. rewrite Hnet; simpl. rewrite Hok. reflexivity.
Qed.

(** Any other response with a JSON body gives the failure toast, with the
    server's message when there is one. *)
Lemma handleUpload_not_ok (res : response) (data : jsval) :
  net (upload_request f) = Resolved res -> ok res = false ->
  json res = Some data -> is_nullish data = false ->
  handleUpload net (Some f)
  = ([Fetch (upload_request f);
      ToastError
        (JStr ("❌ Upload failed: "
               ++ to_string (or_else (get data "message") (JStr "Unknown error"))))],
     Returned tt).
Proof.
  intros Hnet Hok Hjson Hnull. unfold handleUpload, fetch, res_json, member.
  unfold upload_request in Hnet. rewrite Hnet; simpl.
  rewrite Hok, Hjson; simpl. rewrite Hnull. reflexivity.
Qed.

End Upload.

(** C6, at the input where the code departs from it.  The selected file is
    posted as form data to [/kb-upload]; when the server answers 500 with a
    body that is not JSON, [res.json()] rejects inside the failure branch
    and the handler ends with that rejection unhandled: the log holds the
    request and no toast at all. *)
Theorem handleUpload_error_body_not_json :
  handleUpload (answering 500 None) (Some sample_file)
  = ([Fetch (upload_request sample_file)], Thrown SyntaxError)
  /\ existsb is_toast
       (trace (handleUpload (answering 500 None) (Some sample_file))) = false.
Proof. split; reflexivity. Qed.

(** ** Leads and sync logs *)



(** ** The chat route *)

Lemma groq_messages_cases (items : list jsval) :
  (mapM (fun msg =>
           role <- member msg "role" ;;
           content <- member msg "content" ;;
           ret (JObj [("role", role); ("content", content)])) items
   = ([], Returned (map groq_message items))
   /\ Forall (fun r => is_nullish r = false) items)
  \/ (mapM (fun msg =>
              role <- member msg "role" ;;
              content <- member msg "content" ;;
              ret (JObj [("role", role); ("content", content)])) items
      = ([], Thrown TypeError)
      /\ Exists (fun r => is_nullish r = true) items).
Proof.
  induction items as [|x r IH].
  - left. split; [reflexivity|constructor].
  - destruct (is_nullish x) eqn:Hx.
    + right. split; [|left; exact Hx].
      simpl. unfold member at 1. rewrite Hx. reflexivity.
    + destruct IH as [[IH Hall]|[IH Hex]].
      * left. split; [|constructor; assumption].
        simpl. unfold member at 1 2. rewrite Hx. simpl. rewrite IH. reflexivity.
      * right. split; [|right; exact Hex].
        simpl. unfold member at 1 2. rewrite Hx. simpl. rewrite IH. reflexivity.
Qed.

Section RouteRuns.

Variable groq : jsval -> string -> result jsval.

(** The route answers 500 when the request body is not JSON ... *)
Lemma POST_body_not_json :
  POST groq None
  = ([ConsoleError (Some "Chat error:") SyntaxError], Returned chat_failed).
Proof. reflexivity. Qed.

(** ... and when the messages are not an array of non-null values. *)
Lemma POST_reaches_groq (body : jsval) (items : list jsval) :
  is_nullish body = false ->
  or_else (get body "messages") (JArr []) = JArr items ->
  Forall (fun r => is_nullish r = false) items ->
  POST groq (Some body)
  = match groq (JArr (map groq_message items)) model_name with
    | Returned completion =>
        if is_nullish completion
        then ([GroqCreate (JArr (map groq_message items)) model_name;
               ConsoleError (Some "Chat error:") TypeError],
              Returned chat_failed)
        else ([GroqCreate (JArr (map groq_message items)) model_name],
              Returned (assistant_reply (reply_of completion)))
    | Thrown e =>
        ([GroqCreate (JArr (map groq_message items)) model_name;
          ConsoleError (Some "Chat error:") e],
         Returned chat_failed)
    end.
Proof.
  intros Hbody Hmsgs Hitems.
  unfold POST, req_json. cbv beta iota. rewrite bind_ret_l.
  unfold member at 1. rewrite Hbody. cbv beta iota. rewrite bind_ret_l.
  rewrite Hmsgs. unfold array_map.
  destruct (groq_messages_cases items) as [[Hmap _]|[_ Hex]].
  - rewrite Hmap. fold (@ret (list jsval) (map groq_message items)).
    rewrite bind_ret_l. unfold groq_create, model_name.
    destruct (groq _ _) as [completion|e]; [|reflexivity].
    rewrite bind_returned. unfold member.
    destruct (is_nullish completion); reflexivity.
  - exfalso. apply Exists_exists in Hex. destruct Hex as [x [Hin Hx]].
    rewrite Forall_forall in Hitems. rewrite (Hitems x Hin) in Hx. discriminate.
Qed.

End RouteRuns.

Section RouteOutcomes.

Variable groq : jsval -> string -> result jsval.

(** Either the request carries an array of non-null messages, or the run
    ends in the catch before any completion is requested. *)
Lemma POST_bad_request (req : option jsval) :
  (exists body items,
     req = Some body
     /\ is_nullish body = false
     /\ or_else (get body "messages") (JArr []) = JArr items
     /\ Forall (fun r => is_nullish r = false) items)
  \/ exists e,
       POST groq req = ([ConsoleError (Some "Chat error:") e], Returned chat_failed).
Proof.
  destruct req as [body|]; [|right; eexists; reflexivity].
  destruct (is_nullish body) eqn:Hbody.
  { right. exists TypeError. unfold POST, req_json. cbv beta iota.
    rewrite bind_ret_l. unfold member at 1. rewrite Hbody. reflexivity. }
  destruct (or_else (get body "messages") (JArr [])) as [| | | | |items|] eqn:Hm;
    try (right; exists TypeError; unfold POST, req_json; cbv beta iota;
         rewrite bind_ret_l; unfold member at 1; rewrite Hbody; cbv beta iota;
         rewrite bind_ret_l, Hm; reflexivity).
  destruct (groq_messages_cases items) as [[_ Hall]|[Hmap _]].
  - left. exists body, items. auto.
  - right. exists TypeError. unfold POST, req_json. cbv beta iota.
    rewrite bind_ret_l. unfold member at 1. rewrite Hbody. cbv beta iota.
    rewrite bind_ret_l, Hm. unfold array_map. rewrite Hmap. reflexivity.
Qed.

(** The route never throws, and answers in one of two shapes. *)
Lemma POST_outcomes (req : option jsval) :
  (exists msgs reply,
     POST groq req
     = ([GroqCreate msgs model_name], Returned (assistant_reply reply)))
  \/ (exists log e,
        POST groq req
        = ((log ++ [ConsoleError (Some "Chat error:") e])%list, Returned chat_failed)
        /\ (log = [] \/ exists msgs, log = [GroqCreate msgs model_name])).
Proof.
  destruct (POST_bad_request req)
    as [[body [items [-> [Hbody [Hm Hitems]]]]]|[e He]].
  - rewrite (POST_reaches_groq groq body items Hbody Hm Hitems).
    destruct (groq _ _) as [completion|e].
    + destruct (is_nullish completion).
      * right. eexists [_], _. split; [reflexivity|right; eexists; reflexivity].
      * left. eexists _, _. reflexivity.
    + right. eexists [_], _. split; [reflexivity|right; eexists; reflexivity].
  - right. exists [], e. split; [exact He|left; reflexivity].
Qed.

End RouteOutcomes.

(** Messages that are not an array, or hold a [null], end in the catch. *)
Lemma POST_rejects_messages
    (groq : jsval -> string -> result jsval) (body : jsval) :
  is_nullish body = false ->
  match or_else (get body "messages") (JArr []) with
  | JArr l => forallb (fun x => negb (is_nullish x)) l = false
  | _ => True
  end ->
  POST groq (Some body)
  = ([ConsoleError (Some "Chat error:") TypeError], Returned chat_failed).
Proof.
  intros Hbody Hbad. unfold POST, req_json. cbv beta iota.
  rewrite bind_ret_l. unfold member at 1. rewrite Hbody. cbv beta iota.
  rewrite bind_ret_l.
  destruct (or_else (get body "messages") (JArr [])) as [| | | | |l|];
    try reflexivity.
  unfold array_map.
  destruct (groq_messages_cases l) as [[_ Hall]|[Hmap _]].
  - exfalso. rewrite Forall_forall in Hall.
    assert (Hgood : forallb (fun x => negb (is_nullish x)) l = true).
    { apply forallb_forall. intros x Hx. rewrite (Hall x Hx). reflexivity. }
    rewrite Hgood in Hbad. discriminate Hbad.
  - rewrite Hmap. reflexivity.
Qed.

(** C9. In the chat route, with every run spelled out.  A request body that
    is not JSON, or is [null], or whose [messages] is not an array of
    non-null values, is answered 500 with [{error: "Chat failed"}] after the
    error is logged, and Groq is not contacted.  Otherwise the route asks
    Groq once, for the [role] and [content] of each message in order, a
    missing (or falsy) [messages] counting as the empty list.  If that call
    throws, or resolves to [null], the answer is again 500 with
    [{error: "Chat failed"}].  If it resolves to a completion, the answer is
    200 with [{role: "assistant", content: reply}], where [reply] is [""]
    when [choices] is absent or empty (or anything but an array or an
    object), and otherwise the [message.content] of the first choice (of
    the property ["0"] for an object) if truthy and [""] if not.  The route
    itself never throws. *)
Theorem POST_route_contract
    (groq : jsval -> string -> result jsval) (req : option jsval)
    (body : jsval) (items : list jsval)
    (completion choice : jsval) (others : list jsval) (e : exn) :
  let failure :=
    {| resp_status := 500; resp_body := JObj [("error", JStr "Chat failed")] |} in
  let success reply :=
    {| resp_status := 200;
       resp_body := JObj [("role", JStr "assistant"); ("content", reply)] |} in
  let forwarded :=
    JArr (map (fun msg => JObj [("role", get msg "role");
                                ("content", get msg "content")]) items) in
  let asked := GroqCreate forwarded "mixtral-8x7b-32768" in
  POST groq None
  = ([ConsoleError (Some "Chat error:") SyntaxError], Returned failure)
  /\ (is_nullish body = true ->
      POST groq (Some body)
      = ([ConsoleError (Some "Chat error:") TypeError], Returned failure))
  /\ (is_nullish body = false ->
      match or_else (get body "messages") (JArr []) with
      | JArr l => forallb (fun x => negb (is_nullish x)) l = false
      | _ => True
      end ->
      POST groq (Some body)
      = ([ConsoleError (Some "Chat error:") TypeError], Returned failure))
  /\ (is_nullish body = false ->
      get body "messages" = JArr items
      \/ (truthy (get body "messages") = false /\ items = []) ->
      Forall (fun r => is_nullish r = false) items ->
      (groq forwarded "mixtral-8x7b-32768" = Thrown e ->
       POST groq (Some body)
       = ([asked; ConsoleError (Some "Chat error:") e], Returned failure))
      /\ (groq forwarded "mixtral-8x7b-32768" = Returned completion ->
          is_nullish completion = true ->
          POST groq (Some body)
          = ([asked; ConsoleError (Some "Chat error:") TypeError], Returned failure))
      /\ (groq forwarded "mixtral-8x7b-32768" = Returned completion ->
          is_nullish completion = false ->
          get completion "choices" = JUndefined
          \/ get completion "choices" = JArr [] ->
          POST groq (Some body) = ([asked], Returned (success (JStr ""))))
      /\ (groq forwarded "mixtral-8x7b-32768" = Returned completion ->
          is_nullish completion = false ->
          get completion "choices" = JArr (choice :: others) ->
          POST groq (Some body)
          = ([asked],
             Returned
               (success
                  (if truthy (opt_get (opt_get choice "message") "content")
                   then opt_get (opt_get choice "message") "content"
                   else JStr ""))))
      /\ (groq forwarded "mixtral-8x7b-32768" = Returned completion ->
          is_nullish completion = false ->
          match get completion "choices" with
          | JArr _ | JObj _ => False
          | _ => True
          end ->
          POST groq (Some body) = ([asked], Returned (success (JStr ""))))
      /\ (forall fields,
            groq forwarded "mixtral-8x7b-32768" = Returned completion ->
            is_nullish completion = false ->
            get completion "choices" = JObj fields ->
            POST groq (Some body)
            = ([asked],
               Returned
                 (success
                    (if truthy (opt_get (opt_get (lookup "0" fields) "message")
                                  "content")
                     then opt_get (opt_get (lookup "0" fields) "message") "content"
                     else JStr "")))))
  /\ returns (POST groq req) = true.
Proof.
  intros failure success forwarded asked.
  split; [reflexivity|]. split; [|split; [|split]].
  - intros Hbody. unfold POST, req_json. cbv beta iota.
    rewrite bind_ret_l. unfold member at 1. rewrite Hbody. reflexivity.
  - intros Hbody Hbad. exact (POST_rejects_messages groq body Hbody Hbad).
  - intros Hbody Hmsgs Hitems.
    assert (Hm : or_else (get body "messages") (JArr []) = JArr items).
    { unfold or_else. destruct Hmsgs as [H|[H ->]]; rewrite H; reflexivity. }
    pose proof (POST_reaches_groq groq body items Hbody Hm Hitems) as Hrun.
    unfold model_name, groq_message in Hrun. fold forwarded in Hrun.
    split; [|split; [|split; [|split; [|split]]]].
    + intros Hgroq. rewrite Hrun, Hgroq. reflexivity.
    + intros Hgroq Hnull. rewrite Hrun, Hgroq, Hnull. reflexivity.
    + intros Hgroq Hnull Hchoices. rewrite Hrun, Hgroq, Hnull.
      unfold reply_of. destruct Hchoices as [H|H]; rewrite H; reflexivity.
    + intros Hgroq Hnull Hchoices. rewrite Hrun, Hgroq, Hnull.
      unfold reply_of, or_else. rewrite Hchoices. reflexivity.
    + intros Hgroq Hnull Hchoices. rewrite Hrun, Hgroq, Hnull.
      unfold reply_of.
      destruct (get completion "choices") as [| | | |s0| |];
        try contradiction; try reflexivity.
      destruct s0; reflexivity.
    + intros fields Hgroq Hnull Hchoices. rewrite Hrun, Hgroq, Hnull.
      unfold reply_of, or_else. rewrite Hchoices. reflexivity.
  - destruct (POST_outcomes groq req) as [[msgs [reply H]]|[log [e' [H _]]]];
      rewrite H; reflexivity.
Qed.

(** ** Requests and failures across the client *)

(** Every run issues the request of its action, once, and no other. *)
Lemma run_page_requests (net : request -> fetch_result) (a : page_action) :
  filter is_request (trace (run_page net a))
  = match request_of a with
    | Some r => [Fetch r]
    | None => []
    end.
Proof.
  destruct a as [st|username password| |file| | | | | | |]; simpl run_page;
    simpl request_of.
  - destruct (nonempty (trim (query st))) eqn:Hq.
    + destruct (sendChat_ends net st) as [[d Hd]|[e He]].
      * destruct (is_nullish d) eqn:Hnull.
        -- rewrite (handleSend_returned_null net st Hq d Hd Hnull). reflexivity.
        -- rewrite (handleSend_returned net st Hq d Hd Hnull). reflexivity.
      * rewrite (handleSend_thrown net st Hq e He). reflexivity.
    + rewrite (handleSend_blank net st Hq). reflexivity.
  - unfold handleLogin, login_request.
    destruct (negb (nonempty username) || negb (nonempty password));
      [reflexivity|].
    unfold fetch, res_json, member. backend_cases net; reflexivity.
  - unfold fetchSession, fetch, res_json, member. backend_cases net; reflexivity.
  - destruct file as [f|]; [|reflexivity].
    unfold handleUpload, upload_request, fetch, res_json, member.
    backend_cases net; reflexivity.
  - unfold handleReindex, reindex_request, fetch. backend_cases net; reflexivity.
  - unfold KBUploadPage_handleLogout, fetch. backend_cases net; reflexivity.
  - unfold DashboardHome_checkSession, fetch, res_json, member.
    backend_cases net; reflexivity.
  - unfold DashboardLayout_checkSession, fetch, res_json, member.
    backend_cases net; reflexivity.
  - unfold DashboardLayout_handleLogout, fetch. backend_cases net; reflexivity.
  - unfold LeadsPage_effect, fetch, res_json. backend_cases net; reflexivity.
  - unfold SyncLogsPage_effect, fetch, res_json. backend_cases net; reflexivity.
Qed.

Lemma is_endpoint_of_base (base path : string) :
  In path endpoints -> is_endpoint_of base (base ++ path) = true.
Proof.
  intros Hin. unfold is_endpoint_of. apply existsb_exists.
  exists path. split; [exact Hin|apply String.eqb_refl].
Qed.

(** Where the request of each action goes. *)
Lemma request_of_target (a : page_action) (r : request) :
  request_of a = Some r ->
  is_endpoint_of API_BASE (url r) = true
  \/ url r = "http://localhost:8000/chat".
Proof.
  destruct a as [st|username password| |[f|]| | | | | | |]; simpl;
    try destruct (nonempty _); try destruct (_ || _);
    intros H; inversion H; subst r; simpl;
    try (right; reflexivity);
    left; apply is_endpoint_of_base; simpl; tauto.
Qed.

Section Failures.

Variable net : request -> fetch_result.

(** [handleSend] catches every failure of the chat call. *)
Lemma handleSend_failed (st : ChatState) :
  nonempty (trim (query st)) = true ->
  failed (net (chat_request (query st) (sessionId st) (history st) "general")) = true ->
  exists e,
    handleSend net st
    = ([SetState (SetMessages_append (user_message (query st)));
        Fetch (chat_request (query st) (sessionId st) (history st) "general");
        ConsoleError None e;
        SetState (SetMessages_append error_message);
        SetState (SetQuery "")],
       Returned tt).
Proof.
  intros Hq Hfail.
  destruct (net (chat_request _ _ _ _)) as [|res] eqn:Hnet.
  - eexists. apply (handleSend_thrown net st Hq).
    apply sendChat_rejected, Hnet.
  - simpl in Hfail. apply negb_true_iff in Hfail.
    eexists. apply (handleSend_thrown net st Hq).
    eapply sendChat_not_ok; eassumption.
Qed.

(** [handleLogin] catches every failure of the login call. *)
Lemma handleLogin_failed (username password : string) :
  nonempty username = true -> nonempty password = true ->
  failed (net (login_request username password)) = true ->
  returns (handleLogin net username password) = true
  /\ exists msg,
       filter is_toast (trace (handleLogin net username password))
       = [ToastError msg].
Proof.
  intros Hu Hp Hfail. unfold handleLogin. rewrite Hu, Hp. simpl orb. cbv iota.
  unfold fetch. unfold login_request in Hfail.
  destruct (net _) as [|res].
  - split; [reflexivity|eexists; reflexivity].
  - simpl in Hfail. apply negb_true_iff in Hfail. simpl. rewrite Hfail.
    unfold res_json, member.
    destruct (json res) as [data|]; simpl;
      [destruct (is_nullish data); simpl|];
      (split; [reflexivity|eexists; reflexivity]).
Qed.

Lemma handleReindex_not_ok (res : response) :
  net reindex_request = Resolved res -> ok res = false ->
  handleReindex net
  = ([Fetch reindex_request; ToastError (JStr "❌ Failed to reindex")],
     Returned tt).
Proof.
  intros Hnet Hok. unfold handleReindex, fetch.
  unfold reindex_request in Hnet. rewrite Hnet; simpl. rewrite Hok. reflexivity.
Qed.

Lemma DashboardLayout_checkSession_not_ok (res : response) :
  net check_session_request = Resolved res -> ok res = false ->
  DashboardLayout_checkSession net
  = ([Fetch check_session_request;
      ToastError (JStr "Session expired. Redirecting...");
      RouterPush "/login"],
     Returned tt).
Proof.
  intros Hnet Hok. unfold DashboardLayout_checkSession, fetch.
  rewrite Hnet; simpl. rewrite Hok. reflexivity.
Qed.

(** The list pages do nothing about a rejected request. *)
Lemma list_effects_rejected :
  (net (get_request (API_BASE ++ "/leads")) = Rejected ->
   LeadsPage_effect net
   = ([Fetch (get_request (API_BASE ++ "/leads"))], Thrown NetworkError))
  /\ (net (get_request (API_BASE ++ "/sync-logs")) = Rejected ->
      SyncLogsPage_effect net
      = ([Fetch (get_request (API_BASE ++ "/sync-logs"))], Thrown NetworkError)).
Proof.
  split; intros Hnet; [unfold LeadsPage_effect|unfold SyncLogsPage_effect];
    unfold fetch; rewrite Hnet; reflexivity.
Qed.

(** Logging out does not look at the response. *)
Lemma handleLogout_resolved (res : response) :
  net logout_request = Resolved res ->
  KBUploadPage_handleLogout net
  = ([Fetch logout_request; ToastSuccess (JStr "Logged out"); RouterPush "/login"],
     Returned tt)
  /\ DashboardLayout_handleLogout net
     = ([Fetch logout_request; ToastSuccess (JStr "Logged out"); RouterPush "/login"],
        Returned tt).
Proof.
  intros Hnet. unfold KBUploadPage_handleLogout, DashboardLayout_handleLogout, fetch.
  rewrite Hnet. split; reflexivity.
Qed.

End Failures.

(** C4, as the code has it.  A failed call (a rejected request or a response
    that is not 2xx) is caught and shown to the user by the chat handler (an
    error bot message) and by the login handler (one error toast); a rejected
    session check of the KB upload page is caught and redirects to the login
    page; a response that is not 2xx is shown by an error toast in
    [handleReindex] and in the session checks of the dashboard home and
    layout, which also redirect.  The leads and sync-logs fetches leave a
    rejected request unhandled, and the logout handlers report success
    without looking at the response.  No run retries: each issues at most
    one request. *)
Theorem failures_surface_where_handled
    (net : request -> fetch_result) (st : ChatState)
    (username password : string) (res : response) (a : page_action) :
  (nonempty (trim (query st)) = true ->
   failed (net (chat_request (query st) (sessionId st) (history st) "general")) = true ->
   exists e,
     handleSend net st
     = ([SetState (SetMessages_append (user_message (query st)));
         Fetch (chat_request (query st) (sessionId st) (history st) "general");
         ConsoleError None e;
         SetState (SetMessages_append error_message);
         SetState (SetQuery "")],
        Returned tt))
  /\ (nonempty username = true -> nonempty password = true ->
      failed (net (login_request username password)) = true ->
      returns (handleLogin net username password) = true
      /\ exists msg,
           filter is_toast (trace (handleLogin net username password))
           = [ToastError msg])
  /\ (net check_session_request = Rejected ->
      fetchSession net
      = ([Fetch check_session_request;
          ConsoleError (Some "Session check failed:") NetworkError;
          RouterReplace "/login";
          SetState (SetLoading false)],
         Returned tt))
  /\ (net reindex_request = Resolved res -> ok res = false ->
      handleReindex net
      = ([Fetch reindex_request; ToastError (JStr "❌ Failed to reindex")],
         Returned tt))
  /\ (net check_session_request = Resolved res -> ok res = false ->
      DashboardHome_checkSession net
      = ([Fetch check_session_request;
          ToastError (JStr "Session invalid. Redirecting...");
          RouterPush "/login"],
         Returned tt)
      /\ DashboardLayout_checkSession net
         = ([Fetch check_session_request;
             ToastError (JStr "Session expired. Redirecting...");
             RouterPush "/login"],
            Returned tt))
  /\ (net (get_request (API_BASE ++ "/leads")) = Rejected ->
      LeadsPage_effect net
      = ([Fetch (get_request (API_BASE ++ "/leads"))], Thrown NetworkError))
  /\ (net (get_request (API_BASE ++ "/sync-logs")) = Rejected ->
      SyncLogsPage_effect net
      = ([Fetch (get_request (API_BASE ++ "/sync-logs"))], Thrown NetworkError))
  /\ (net logout_request = Resolved res ->
      KBUploadPage_handleLogout net
      = ([Fetch logout_request; ToastSuccess (JStr "Logged out"); RouterPush "/login"],
         Returned tt)
      /\ DashboardLayout_handleLogout net
         = ([Fetch logout_request; ToastSuccess (JStr "Logged out"); RouterPush "/login"],
            Returned tt))
  /\ (count_requests (trace (run_page net a)) <= 1)%nat.
Proof.
  split; [exact (handleSend_failed net st)|].
  split; [exact (handleLogin_failed net username password)|].
  split; [exact (fetchSession_rejected net)|].
  split; [exact (handleReindex_not_ok net res)|].
  split.
  { intros Hnet Hok. split.
    - exact (DashboardHome_checkSession_not_ok net res Hnet Hok).
    - exact (DashboardLayout_checkSession_not_ok net res Hnet Hok). }
  split; [exact (proj1 (list_effects_rejected net))|].
  split; [exact (proj2 (list_effects_rejected net))|].
  split; [exact (handleLogout_resolved net res)|].
  unfold count_requests. rewrite run_page_requests.
  destruct (request_of a); simpl; lia.
Qed.

(** C5, as the code has it.  Every request of a page action goes to one of
    the eight endpoints of the backend API at the configured base, except
    that of [sendChat], which goes to [/chat] at the built-in base
    [http://localhost:8000]; the chat route issues no such request and
    contacts the Groq completion service instead. *)
Theorem requests_target_backend_or_groq
    (net : request -> fetch_result) (groq : jsval -> string -> result jsval)
    (a : page_action) (req : option jsval) (ev : event) :
  (In ev (trace (run_page net a)) -> is_request ev = true ->
   exists r, ev = Fetch r
             /\ (is_endpoint_of API_BASE (url r) = true
                 \/ url r = "http://localhost:8000/chat"))
  /\ (In ev (trace (POST groq req)) -> is_request ev = true ->
      exists msgs, ev = GroqCreate msgs "mixtral-8x7b-32768").
Proof.
  split.
  - intros Hin Hreq.
    assert (Hf : In ev (filter is_request (trace (run_page net a)))).
    { apply filter_In. split; assumption. }
    rewrite run_page_requests in Hf.
    destruct (request_of a) as [r|] eqn:Hr; simpl in Hf; [|contradiction].
    destruct Hf as [<-|[]]. exists r. split; [reflexivity|].
    exact (request_of_target a r Hr).
  - intros Hin Hreq.
    destruct (POST_outcomes groq req) as [[msgs [reply Hrun]]|[log [e [Hrun Hlog]]]];
      rewrite Hrun in Hin; unfold trace in Hin; simpl fst in Hin.
    + destruct Hin as [<-|[]]. exists msgs. reflexivity.
    + apply in_app_or in Hin. destruct Hin as [Hin|[<-|[]]]; [|discriminate].
      destruct Hlog as [->|[msgs ->]]; [contradiction|].
      destruct Hin as [<-|[]]. exists msgs. reflexivity.
Qed.

(** * Further properties of the pages *)

(** ** The session checks, in full *)

Lemma strict_eq_string_nullish (v : jsval) (lit : string) :
  is_nullish v = true -> strict_eq_string (get v "role") lit = false.
Proof. destruct v; simpl; intros H; try discriminate; reflexivity. Qed.

(** The three ways a run of [fetchSession] can go. *)
Lemma fetchSession_cases (net : request -> fetch_result) :
  (says_logged_in (net check_session_request) = true
   /\ fetchSession net
      = ([Fetch check_session_request; SetState (SetRole "logged_in");
          SetState (SetLoading false)], Returned tt))
  \/ (says_logged_in (net check_session_request) = false
      /\ (fetchSession net
          = ([Fetch check_session_request; RouterReplace "/login";
              SetState (SetLoading false)], Returned tt)
          \/ exists e,
               fetchSession net
               = ([Fetch check_session_request;
                   ConsoleError (Some "Session check failed:") e;
                   RouterReplace "/login";
                   SetState (SetLoading false)], Returned tt))).
Proof.
  unfold says_logged_in, fetchSession, fetch, res_json, member.
  destruct (net check_session_request) as [|res].
  - right. split; [reflexivity|]. right. eexists. reflexivity.
  - simpl. destruct (json res) as [data|]; simpl.
    + destruct (is_nullish data) eqn:Hnull; simpl.
      * right. split; [apply strict_eq_string_nullish, Hnull|].
        right. eexists. reflexivity.
      * destruct (strict_eq_string (get data "role") "logged_in"); simpl.
        -- left. split; reflexivity.
        -- right. split; [reflexivity|]. left. reflexivity.
    + right. split; [reflexivity|]. right. eexists. reflexivity.
Qed.

(** X1. Whatever the backend does, the session check of the KB upload page
    returns normally and its last action clears [loading]: the page always
    leaves the "Checking login status..." placeholder and renders the upload
    form, also when the check failed and a redirect was issued. *)
Theorem fetchSession_always_settles (net : request -> fetch_result) :
  returns (fetchSession net) = true
  /\ (exists pre,
        trace (fetchSession net) = (pre ++ [SetState (SetLoading false)])%list)
  /\ loading_after true (trace (fetchSession net)) = false
  /\ KBUploadPage_render (loading_after true (trace (fetchSession net)))
     = VElem "div" None
         [VElem "div" None [VElem "h2" None [VText "Knowledge Base Upload"];
                            VElem "Button" None [VText "Logout"]];
          VElem "Input" None [];
          VElem "div" None [VElem "Button" None [VText "Upload"];
                            VElem "Button" None [VText "Sync Now"]]]
  /\ KBUploadPage_render true
     = VElem "div" None [VElem "p" None [VText "Checking login status..."]].
Proof.
  destruct (fetchSession_cases net) as [[_ H]|[_ [H|[e H]]]]; rewrite H.
  - split; [reflexivity|]. split; [exists [Fetch check_session_request;
      SetState (SetRole "logged_in")]; reflexivity|]. repeat split.
  - split; [reflexivity|]. split; [exists [Fetch check_session_request;
      RouterReplace "/login"]; reflexivity|]. repeat split.
  - split; [reflexivity|]. split; [exists [Fetch check_session_request;
      ConsoleError (Some "Session check failed:") e; RouterReplace "/login"];
      reflexivity|]. repeat split.
Qed.

(** X2. The session check of the KB upload page decides exactly once, and on
    the body alone: it sets the role when the body of the response carries
    the role ["logged_in"], whatever the status, and replaces the location
    by [/login] in every other case. *)
Theorem fetchSession_decides_on_body (net : request -> fetch_result) :
  filter is_gate_decision (trace (fetchSession net))
  = if says_logged_in (net check_session_request)
    then [SetState (SetRole "logged_in")]
    else [RouterReplace "/login"].
Proof.
  destruct (fetchSession_cases net) as [[Hb H]|[Hb [H|[e H]]]];
    rewrite H, Hb; reflexivity.
Qed.

(** The ways a run of the dashboard session checks can go. *)
Lemma checkSession_cases (net : request -> fetch_result) (msg : string)
    (check : M unit) :
  check
  = (res <- fetch net check_session_request ;;
     if ok res
     then (data <- res_json res ;;
           role <- member data "role" ;;
           if strict_eq_string role "logged_in"
           then set_state (SetRole "logged_in")
           else router_push "/login")
     else (toast_error (JStr msg) ;; router_push "/login")) ->
  (grants_session (net check_session_request) = true
   /\ check = ([Fetch check_session_request; SetState (SetRole "logged_in")],
               Returned tt))
  \/ (grants_session (net check_session_request) = false
      /\ (check = ([Fetch check_session_request; RouterPush "/login"], Returned tt)
          \/ check = ([Fetch check_session_request; ToastError (JStr msg);
                       RouterPush "/login"], Returned tt)
          \/ exists e, check = ([Fetch check_session_request], Thrown e))).
Proof.
  intros ->. unfold grants_session, says_logged_in, failed, fetch, res_json, member.
  destruct (net check_session_request) as [|res].
  - right. split; [reflexivity|]. right. right. eexists. reflexivity.
  - simpl. destruct (ok res); simpl.
    + destruct (json res) as [data|]; simpl.
      * destruct (is_nullish data) eqn:Hnull; simpl.
        -- right. split; [apply strict_eq_string_nullish, Hnull|].
           right. right. eexists. reflexivity.
        -- destruct (strict_eq_string (get data "role") "logged_in"); simpl.
           ++ left. split; reflexivity.
           ++ right. split; [reflexivity|]. left. reflexivity.
      * right. split; [reflexivity|]. right. right. eexists. reflexivity.
    + right. split; [reflexivity|]. right. left. reflexivity.
Qed.

(** X3. The dashboard home and the dashboard layout set the role, and so
    leave the "Checking session..." placeholder, exactly when the session
    check is answered 2xx with the role ["logged_in"]: they then render
    their content (the welcome screen; the navigation bar around the page),
    and in every other run the role stays unset and the placeholder is what
    they render. *)
Theorem checkSession_grants_only_logged_in
    (net : request -> fetch_result) (children : vnode) :
  role_after None (trace (DashboardHome_checkSession net))
  = (if grants_session (net check_session_request) then Some "logged_in" else None)
  /\ role_after None (trace (DashboardLayout_checkSession net))
     = (if grants_session (net check_session_request) then Some "logged_in" else None)
  /\ (grants_session (net check_session_request) = false ->
      DashboardHome_render (role_after None (trace (DashboardHome_checkSession net)))
      = VElem "p" None [VText "Checking session..."]
      /\ DashboardLayout_render
           (role_after None (trace (DashboardLayout_checkSession net))) children
         = VElem "p" None [VText "Checking session..."])
  /\ (grants_session (net check_session_request) = true ->
      DashboardHome_render (role_after None (trace (DashboardHome_checkSession net)))
      = VElem "div" None
          [VElem "h1" None [VText "Welcome to AmityBot Admin"];
           VElem "div" None [VElem "Button" None [VText "Open Chat Interface"];
                             VElem "Button" None [VText "Upload Knowledge Base"]]]
      /\ DashboardLayout_render
           (role_after None (trace (DashboardLayout_checkSession net))) children
         = VElem "div" None
             [VElem "nav" None
                [VElem "div" None [VElem "Link" None [VText "Home"];
                                   VElem "Link" None [VText "Chat"];
                                   VElem "Link" None [VText "KB Upload"]];
                 VElem "button" None [VText "Logout"]];
              VElem "main" None [children]]).
Proof.
  assert (Hhome : role_after None (trace (DashboardHome_checkSession net))
                  = if grants_session (net check_session_request)
                    then Some "logged_in" else None).
  { destruct (checkSession_cases net "Session invalid. Redirecting..."
                (DashboardHome_checkSession net) eq_refl)
      as [[Hg H]|[Hg [H|[H|[e H]]]]]; rewrite H, Hg; reflexivity. }
  assert (Hlayout : role_after None (trace (DashboardLayout_checkSession net))
                    = if grants_session (net check_session_request)
                      then Some "logged_in" else None).
  { destruct (checkSession_cases net "Session expired. Redirecting..."
                (DashboardLayout_checkSession net) eq_refl)
      as [[Hg H]|[Hg [H|[H|[e H]]]]]; rewrite H, Hg; reflexivity. }
  split; [exact Hhome|]. split; [exact Hlayout|].
  split; intros Hg; rewrite Hhome, Hlayout, Hg; split; reflexivity.
Qed.

(** X4. A dashboard session check never does both: a run that sets the role
    does not navigate, and a run that navigates goes to [/login] and leaves
    the role unset. *)
Theorem checkSession_sets_role_or_redirects (net : request -> fetch_result) :
  (filter is_gate_decision (trace (DashboardHome_checkSession net))
   = [SetState (SetRole "logged_in")]
   \/ filter is_gate_decision (trace (DashboardHome_checkSession net))
      = [RouterPush "/login"]
   \/ filter is_gate_decision (trace (DashboardHome_checkSession net)) = [])
  /\ (filter is_gate_decision (trace (DashboardLayout_checkSession net))
      = [SetState (SetRole "logged_in")]
      \/ filter is_gate_decision (trace (DashboardLayout_checkSession net))
         = [RouterPush "/login"]
      \/ filter is_gate_decision (trace (DashboardLayout_checkSession net)) = []).
Proof.
  split.
  - destruct (checkSession_cases net "Session invalid. Redirecting..."
                (DashboardHome_checkSession net) eq_refl)
      as [[_ H]|[_ [H|[H|[e H]]]]]; rewrite H; simpl; auto.
  - destruct (checkSession_cases net "Session expired. Redirecting..."
                (DashboardLayout_checkSession net) eq_refl)
      as [[_ H]|[_ [H|[H|[e H]]]]]; rewrite H; simpl; auto.
Qed.

(** ** Login and upload, in full *)

(** X5. [handleLogin] never throws and shows exactly one toast per run; it
    navigates to the KB upload page exactly when both fields are filled in
    and the login request is answered 2xx. *)
Theorem handleLogin_one_toast
    (net : request -> fetch_result) (username password : string) :
  returns (handleLogin net username password) = true
  /\ List.length (filter is_toast (trace (handleLogin net username password))) = 1%nat
  /\ (In (RouterReplace "/dashboard/kb-upload")
         (trace (handleLogin net username password))
      <-> nonempty username = true /\ nonempty password = true
          /\ exists res, net (login_request username password) = Resolved res
                         /\ ok res = true).
Proof.
  unfold handleLogin, login_request.
  destruct (nonempty username); simpl orb; cbv iota;
    [destruct (nonempty password); simpl orb; cbv iota|].
  - unfold fetch, res_json, member.
    destruct (net _) as [|res]; simpl.
    + split; [reflexivity|]. split; [reflexivity|]. split.
      * intros [H|[H|[H|[]]]]; discriminate H.
      * intros [_ [_ [res [H _]]]]. discriminate H.
    + destruct (ok res) eqn:Hok; simpl.
      * split; [reflexivity|]. split; [reflexivity|]. split.
        -- intros _. repeat split. exists res. split; [reflexivity|exact Hok].
        -- intros _. right. right. left. reflexivity.
      * destruct (json res) as [data|]; simpl;
          [destruct (is_nullish data); simpl|];
          (split; [reflexivity|]; split; [reflexivity|]; split;
           [ intros H; simpl in H;
             repeat (destruct H as [H|H]; [discriminate H|]); contradiction
           | intros [_ [_ [res' [H Hok']]]]; inversion H; subst res';
             rewrite Hok in Hok'; discriminate Hok' ]).
  - split; [reflexivity|]. split; [reflexivity|]. split.
    + intros [H|[]]; discriminate H.
    + intros [_ [H _]]. discriminate H.
  - split; [reflexivity|]. split; [reflexivity|]. split.
    + intros [H|[]]; discriminate H.
    + intros [H _]. discriminate H.
Qed.

(** X6. When the login request is answered with a status that is not 2xx,
    the one toast is an error toast whose text is the [detail] of the JSON
    body when that is truthy, ["Login failed"] when [detail] is absent or
    falsy, and ["Something went wrong"] when the body is not JSON or is
    [null]. *)
Theorem handleLogin_error_text
    (net : request -> fetch_result) (username password : string)
    (res : response) :
  nonempty username = true -> nonempty password = true ->
  net (login_request username password) = Resolved res ->
  ok res = false ->
  filter is_toast (trace (handleLogin net username password))
  = [ToastError
       match json res with
       | Some data =>
           if is_nullish data then JStr "Something went wrong"
           else if truthy (get data "detail") then get data "detail"
                else JStr "Login failed"
       | None => JStr "Something went wrong"
       end].
Proof.
  intros Hu Hp Hnet Hok. unfold handleLogin. rewrite Hu, Hp. simpl orb. cbv iota.
  unfold fetch. unfold login_request in Hnet. rewrite Hnet. simpl. rewrite Hok.
  unfold res_json, member, or_else.
  destruct (json res) as [data|]; simpl; [|reflexivity].
  destruct (is_nullish data); simpl; reflexivity.
Qed.

(** X7. The success toast of the upload appears exactly when a file is
    selected and the upload request is answered 2xx; and no run shows more
    than one toast. *)
Theorem handleUpload_success_iff_ok
    (net : request -> fetch_result) (file : option File) :
  (In (ToastSuccess (JStr "✅ File uploaded and indexed"))
      (trace (handleUpload net file))
   <-> exists f res, file = Some f
                     /\ net (upload_request f) = Resolved res
                     /\ ok res = true)
  /\ (List.length (filter is_toast (trace (handleUpload net file))) <= 1)%nat.
Proof.
  destruct file as [f|]; simpl.
  - unfold fetch, res_json, member.
    change {| url := API_BASE ++ "/kb-upload"; method := "POST"; headers := [];
              credentials := Some "include";
              body := FormBody [("file", FormFile f)] |}
      with (upload_request f).
    destruct (net (upload_request f)) as [|res] eqn:Hnet; simpl.
    + split; [|lia]. split.
      * intros [H|[]]; discriminate H.
      * intros [f' [res [Hf [H _]]]]. inversion Hf; subst f'.
        rewrite Hnet in H. discriminate H.
    + destruct (ok res) eqn:Hok; simpl.
      * split; [|lia]. split.
        -- intros _. exists f, res. repeat split; assumption.
        -- intros _. right. left. reflexivity.
      * assert (Hconv : (exists f' res', Some f = Some f'
                           /\ net (upload_request f') = Resolved res'
                           /\ ok res' = true) -> False).
        { intros [f' [res' [Hf [H Hok']]]]. inversion Hf; subst f'.
          rewrite Hnet in H. inversion H; subst res'.
          rewrite Hok in Hok'. discriminate Hok'. }
        destruct (json res) as [data|]; simpl;
          [destruct (is_nullish data); simpl|];
          (split; [|lia]; split;
           [ intros H; repeat (destruct H as [H|H]; [discriminate H|]);
             contradiction
           | intros H; exfalso; exact (Hconv H) ]).
  - split; [|simpl; lia]. split.
    + intros [H|[]]; discriminate H.
    + intros [f [res [H _]]]. discriminate H.
Qed.

(** X8. When the upload is refused with a JSON object as body, the failure
    toast names the server's [message] if it is a string that is not empty,
    and says ["Unknown error"] if [message] is absent or the empty string. *)
Theorem handleUpload_failure_text
    (net : request -> fetch_result) (f : File) (res : response)
    (fields : list (string * jsval)) (s : string) :
  net (upload_request f) = Resolved res -> ok res = false ->
  json res = Some (JObj fields) ->
  (lookup "message" fields = JStr s -> nonempty s = true ->
   handleUpload net (Some f)
   = ([Fetch (upload_request f);
       ToastError (JStr ("❌ Upload failed: " ++ s))], Returned tt))
  /\ (lookup "message" fields = JUndefined \/ lookup "message" fields = JStr "" ->
      handleUpload net (Some f)
      = ([Fetch (upload_request f);
          ToastError (JStr "❌ Upload failed: Unknown error")], Returned tt)).
Proof.
  intros Hnet Hok Hjson.
  rewrite (handleUpload_not_ok net f res (JObj fields) Hnet Hok Hjson eq_refl).
  unfold or_else. simpl get. split.
  - intros Hm Hs. rewrite Hm. simpl truthy. unfold nonempty in Hs. rewrite Hs.
    reflexivity.
  - intros [Hm|Hm]; rewrite Hm; reflexivity.
Qed.

(** ** The list pages at their edges *)

(** Mapping a callback that reads properties of each element. *)
Lemma mapM_reads {B} (f : jsval -> M B) (g : jsval -> B) (l : list jsval) :
  (forall x, is_nullish x = false -> f x = ret (g x)) ->
  (forall x, is_nullish x = true -> f x = throw TypeError) ->
  mapM f l = if forallb (fun x => negb (is_nullish x)) l
             then ret (map g l) else throw TypeError.
Proof.
  intros Hret Hthrow. induction l as [|x l IH]; simpl.
  - reflexivity.
  - destruct (is_nullish x) eqn:Hx; simpl.
    + rewrite (Hthrow x Hx). reflexivity.
    + rewrite (Hret x Hx), bind_ret_l, IH.
      destruct (forallb _ l); reflexivity.
Qed.

Lemma LeadsPage_rows_array (items : list jsval) :
  LeadsPage_rows (JArr items)
  = if forallb (fun x => negb (is_nullish x)) items
    then ret (map lead_row items) else throw TypeError.
Proof.
  unfold LeadsPage_rows, array_map. apply mapM_reads; intros x Hx;
    unfold member; rewrite Hx; reflexivity.
Qed.

Lemma SyncLogsPage_rows_array (items : list jsval) :
  SyncLogsPage_rows (JArr items)
  = if forallb (fun x => negb (is_nullish x)) items
    then ret (map log_row items) else throw TypeError.
Proof.
  unfold SyncLogsPage_rows, array_map. apply mapM_reads; intros x Hx;
    unfold member; rewrite Hx; reflexivity.
Qed.

(** X9. The render of the leads page and of the sync-logs page throws a
    [TypeError] exactly when the stored value is not an array or holds a
    [null] element; otherwise it returns the table whose body has one row
    per element, in order, keyed and filled from the element's fields. *)
Theorem list_render_throws_iff (v : jsval) (items : list jsval) :
  (match v with
   | JArr l => forallb (fun x => negb (is_nullish x)) l = false
   | _ => True
   end ->
   LeadsPage_render v = ([], Thrown TypeError)
   /\ SyncLogsPage_render v = ([], Thrown TypeError))
  /\ (forallb (fun x => negb (is_nullish x)) items = true ->
      LeadsPage_render (JArr items)
      = ([],
         Returned
           (VElem "div" None
              [VElem "h2" None [VText "Leads"];
               VElem "table" None
                 [VElem "thead" None
                    [VElem "tr" None
                       [VElem "th" None [VText "ID"];
                        VElem "th" None [VText "Name"];
                        VElem "th" None [VText "Status"]]];
                  VElem "tbody" None
                    (map (fun lead =>
                            VElem "tr" (Some (get lead "id"))
                              [VElem "td" None [VExpr (get lead "id")];
                               VElem "td" None [VExpr (get lead "name")];
                               VElem "td" None [VExpr (get lead "status")]])
                         items)]]))
      /\ SyncLogsPage_render (JArr items)
         = ([],
            Returned
              (VElem "div" None
                 [VElem "h2" None [VText "Sync Logs"];
                  VElem "table" None
                    [VElem "thead" None
                       [VElem "tr" None
                          [VElem "th" None [VText "Job ID"];
                           VElem "th" None [VText "Status"];
                           VElem "th" None [VText "Duration"]]];
                     VElem "tbody" None
                       (map (fun log =>
                               VElem "tr" (Some (get log "job_id"))
                                 [VElem "td" None [VExpr (get log "job_id")];
                                  VElem "td" None [VExpr (get log "status")];
                                  VElem "td" None [VExpr (get log "duration")]])
                            items)]]))).
Proof.
  split.
  - intros Hv. unfold LeadsPage_render, SyncLogsPage_render.
    destruct v as [| | | | |l|]; try (split; reflexivity).
    rewrite LeadsPage_rows_array, SyncLogsPage_rows_array, Hv.
    split; reflexivity.
  - intros Hitems. unfold LeadsPage_render, SyncLogsPage_render.
    rewrite LeadsPage_rows_array, SyncLogsPage_rows_array, Hitems.
    rewrite !bind_ret_l. split; reflexivity.
Qed.

(** X10. When a list endpoint answers with a falsy body ([null], [false],
    [0], the empty string), whatever the status, its page stores the empty
    array instead and renders the table without rows.  Each page depends on
    its own endpoint only. *)
Theorem list_pages_fall_back_to_empty
    (net : request -> fetch_result) (res res' : response) (data data' : jsval) :
  (net {| url := API_BASE ++ "/leads"; method := "GET"; headers := [];
          credentials := None; body := NoBody |} = Resolved res ->
   json res = Some data -> truthy data = false ->
   LeadsPage_effect net
   = ([Fetch {| url := API_BASE ++ "/leads"; method := "GET"; headers := [];
                credentials := None; body := NoBody |};
       SetState (SetLeads (JArr []))],
      Returned tt)
   /\ LeadsPage_render (leads_after (JArr []) (trace (LeadsPage_effect net)))
      = ([],
         Returned
           (VElem "div" None
              [VElem "h2" None [VText "Leads"];
               VElem "table" None
                 [VElem "thead" None
                    [VElem "tr" None
                       [VElem "th" None [VText "ID"];
                        VElem "th" None [VText "Name"];
                        VElem "th" None [VText "Status"]]];
                  VElem "tbody" None []]])))
  /\ (net {| url := API_BASE ++ "/sync-logs"; method := "GET"; headers := [];
             credentials := None; body := NoBody |} = Resolved res' ->
      json res' = Some data' -> truthy data' = false ->
      SyncLogsPage_effect net
      = ([Fetch {| url := API_BASE ++ "/sync-logs"; method := "GET"; headers := [];
                   credentials := None; body := NoBody |};
          SetState (SetLogs (JArr []))],
         Returned tt)
      /\ SyncLogsPage_render (logs_after (JArr []) (trace (SyncLogsPage_effect net)))
         = ([],
            Returned
              (VElem "div" None
                 [VElem "h2" None [VText "Sync Logs"];
                  VElem "table" None
                    [VElem "thead" None
                       [VElem "tr" None
                          [VElem "th" None [VText "Job ID"];
                           VElem "th" None [VText "Status"];
                           VElem "th" None [VText "Duration"]]];
                     VElem "tbody" None []]]))).
Proof.
  split.
  - intros Hnet Hjson Hdata.
    assert (H1 : LeadsPage_effect net
                 = ([Fetch (get_request (API_BASE ++ "/leads"));
                     SetState (SetLeads (JArr []))], Returned tt)).
    { unfold LeadsPage_effect, fetch, res_json, or_else, get_request.
      rewrite Hnet; simpl. rewrite Hjson; simpl. rewrite Hdata. reflexivity. }
    rewrite H1. split; reflexivity.
  - intros Hnet Hjson Hdata.
    assert (H2 : SyncLogsPage_effect net
                 = ([Fetch (get_request (API_BASE ++ "/sync-logs"));
                     SetState (SetLogs (JArr []))], Returned tt)).
    { unfold SyncLogsPage_effect, fetch, res_json, or_else, get_request.
      rewrite Hnet; simpl. rewrite Hjson; simpl. rewrite Hdata. reflexivity. }
    rewrite H2. split; reflexivity.
Qed.

(** X11. The list pages do not look at the status: a JSON object sent as
    body, such as an error payload, is stored as the list, and the render
    that follows throws a [TypeError].  Each page depends on its own
    endpoint only. *)
Theorem list_pages_store_error_payload
    (net : request -> fetch_result) (res res' : response)
    (fields fields' : list (string * jsval)) :
  (net {| url := API_BASE ++ "/leads"; method := "GET"; headers := [];
          credentials := None; body := NoBody |} = Resolved res ->
   json res = Some (JObj fields) ->
   LeadsPage_effect net
   = ([Fetch {| url := API_BASE ++ "/leads"; method := "GET"; headers := [];
                credentials := None; body := NoBody |};
       SetState (SetLeads (JObj fields))],
      Returned tt)
   /\ leads_after (JArr []) (trace (LeadsPage_effect net)) = JObj fields
   /\ LeadsPage_render (leads_after (JArr []) (trace (LeadsPage_effect net)))
      = ([], Thrown TypeError))
  /\ (net {| url := API_BASE ++ "/sync-logs"; method := "GET"; headers := [];
             credentials := None; body := NoBody |} = Resolved res' ->
      json res' = Some (JObj fields') ->
      SyncLogsPage_effect net
      = ([Fetch {| url := API_BASE ++ "/sync-logs"; method := "GET"; headers := [];
                   credentials := None; body := NoBody |};
          SetState (SetLogs (JObj fields'))],
         Returned tt)
      /\ logs_after (JArr []) (trace (SyncLogsPage_effect net)) = JObj fields'
      /\ SyncLogsPage_render (logs_after (JArr []) (trace (SyncLogsPage_effect net)))
         = ([], Thrown TypeError)).
Proof.
  split.
  - intros Hnet Hjson.
    assert (H1 : LeadsPage_effect net
                 = ([Fetch (get_request (API_BASE ++ "/leads"));
                     SetState (SetLeads (JObj fields))], Returned tt)).
    { unfold LeadsPage_effect, fetch, res_json, or_else, get_request.
      rewrite Hnet; simpl. rewrite Hjson; reflexivity. }
    rewrite H1. repeat split.
  - intros Hnet Hjson.
    assert (H2 : SyncLogsPage_effect net
                 = ([Fetch (get_request (API_BASE ++ "/sync-logs"));
                     SetState (SetLogs (JObj fields'))], Returned tt)).
    { unfold SyncLogsPage_effect, fetch, res_json, or_else, get_request.
      rewrite Hnet; simpl. rewrite Hjson; reflexivity. }
    rewrite H2. repeat split.
Qed.

(** ** Conversations *)

Lemma ChatPage_messages_from_app (i : nat) (l1 l2 : list message) :
  ChatPage_messages_from i (l1 ++ l2)
  = (ChatPage_messages_from i l1
     ++ ChatPage_messages_from (i + List.length l1) l2)%list.
Proof.
  revert i. induction l1 as [|m l1 IH]; intros i; simpl.
  - rewrite Nat.add_0_r. reflexivity.
  - rewrite IH, Nat.add_succ_r. reflexivity.
Qed.

(** One turn of a conversation. *)
Lemma send_cases (net : request -> fetch_result) (q : string) (st : ChatState) :
  (nonempty (trim q) = false /\ send net q st = type_query st q)
  \/ (nonempty (trim q) = true
      /\ exists v,
           (send net q st
            = {| query := "";
                 messages := (messages st ++ [user_message q; bot_message v])%list;
                 sessionId := sessionId st;
                 history := (history st ++ [(q, v)])%list |})
           \/ (v = JStr "Error from server."
               /\ send net q st
                  = {| query := "";
                       messages := (messages st ++ [user_message q; bot_message v])%list;
                       sessionId := sessionId st;
                       history := history st |})).
Proof.
  unfold send. destruct (nonempty (trim q)) eqn:Hq.
  - right. split; [reflexivity|].
    assert (Hq' : nonempty (trim (query (type_query st q))) = true) by exact Hq.
    destruct (handleSend_state_cases net (type_query st q) Hq')
      as [[d [_ [_ H]]]|[_ H]]; rewrite H.
    + exists (get d "result"). left. reflexivity.
    + exists (JStr "Error from server."). right. split; reflexivity.
  - left. split; [reflexivity|].
    assert (Hq' : nonempty (trim (query (type_query st q))) = false) by exact Hq.
    rewrite (handleSend_blank net (type_query st q) Hq'). reflexivity.
Qed.

(** X12. A send with a query that is not blank adds exactly two bubbles to
    the chat, after the ones already shown: the query, right-aligned and
    labelled "You", then a left-aligned bubble labelled "AmityBot" that
    holds the [result] of the answer when [sendChat] returned a body other
    than [null], and the text "Error from server." in every other case. *)
Theorem send_adds_two_bubbles (net : request -> fetch_result) (st : ChatState) :
  nonempty (trim (query st)) = true ->
  ChatPage_messages (messages (chat_after st (trace (handleSend net st))))
  = (ChatPage_messages (messages st)
     ++ [{| bubble_key := List.length (messages st);
            bubble_class := "text-right";
            bubble_label := "You";
            bubble_content := JStr (query st) |};
         {| bubble_key := S (List.length (messages st));
            bubble_class := "text-left";
            bubble_label := "AmityBot";
            bubble_content :=
              match snd (sendChat net (send_args st)) with
              | Returned data =>
                  if is_nullish data then JStr "Error from server."
                  else get data "result"
              | Thrown _ => JStr "Error from server."
              end |}])%list.
Proof.
  intros Hq.
  destruct (handleSend_state_cases net st Hq) as [[d [Hd [Hnull H]]]|[Hnone H]];
    rewrite H; simpl messages; unfold ChatPage_messages;
    rewrite ChatPage_messages_from_app.
  - rewrite Hd, Hnull. reflexivity.
  - destruct (snd (sendChat net (send_args st))) as [d|e] eqn:Hd.
    + rewrite (Hnone d eq_refl). reflexivity.
    + reflexivity.
Qed.

(** X13. A conversation only appends.  After any sequence of sends the
    session id is the one the page started with, the messages shown before
    are still there, followed by exactly two more per query that was not
    blank, and the history has kept its old pairs and gained at most one per
    such query. *)
Theorem chat_session_appends
    (st : ChatState) (turns : list (string * (request -> fetch_result))) :
  sessionId (chat_session st turns) = sessionId st
  /\ (exists shown,
        messages (chat_session st turns) = (messages st ++ shown)%list
        /\ List.length shown = (2 * spoken turns)%nat)
  /\ (exists kept,
        history (chat_session st turns) = (history st ++ kept)%list
        /\ (List.length kept <= spoken turns)%nat).
Proof.
  revert st. induction turns as [|[q net] turns IH]; intros st.
  - split; [reflexivity|]. split; exists []; rewrite app_nil_r; split;
      simpl; try reflexivity; lia.
  - change (chat_session st ((q, net) :: turns))
      with (chat_session (send net q st) turns).
    destruct (IH (send net q st)) as [Hsid [[shown [Hm Hlen]] [kept [Hh Hk]]]].
    rewrite Hsid, Hm, Hh. clear IH Hsid Hm Hh.
    unfold spoken in *. simpl filter. simpl fst.
    destruct (send_cases net q st) as [[Hq H]|[Hq [v [H|[_ H]]]]];
      rewrite H, Hq; simpl.
    + split; [reflexivity|]. split; [exists shown|exists kept]; split; auto.
    + split; [reflexivity|]. split.
      * exists ([user_message q; bot_message v] ++ shown)%list.
        rewrite app_assoc. split; [reflexivity|]. simpl. lia.
      * exists ([(q, v)] ++ kept)%list.
        rewrite app_assoc. split; [reflexivity|]. simpl. lia.
    + split; [reflexivity|]. split.
      * exists ([user_message q; bot_message v] ++ shown)%list.
        rewrite app_assoc. split; [reflexivity|]. simpl. lia.
      * exists kept. split; [reflexivity|]. lia.
Qed.

Lemma send_keeps_session_id (st : ChatState) (q : string)
    (net : request -> fetch_result) :
  sessionId (send net q st) = sessionId st.
Proof.
  destruct (send_cases net q st) as [[_ H]|[_ [v [H|[_ H]]]]]; rewrite H;
    reflexivity.
Qed.

(** ** Sends that overlap *)

(** The two parts put together are [handleSend]. *)
Lemma handleSend_split (net : request -> fetch_result) (st : ChatState) :
  nonempty (trim (query st)) = true ->
  handleSend net st
  = (handleSend_click st ;; handleSend_resume st (sendChat net (send_args st))).
Proof. intros Hq. unfold handleSend. rewrite Hq. reflexivity. Qed.

(** The state after the second part. *)
Lemma resume_cases (st st0 : ChatState) (o : result jsval) :
  (exists d,
     o = Returned d /\ is_nullish d = false
     /\ chat_after st (trace (handleSend_resume st0 ([], o)))
        = {| query := "";
             messages := (messages st
                          ++ [{| msg_role := "bot";
                                 msg_content := get d "result" |}])%list;
             sessionId := sessionId st;
             history := (history st ++ [(query st0, get d "result")])%list |})
  \/ chat_after st (trace (handleSend_resume st0 ([], o)))
     = {| query := "";
          messages := (messages st
                       ++ [{| msg_role := "bot";
                              msg_content := JStr "Error from server." |}])%list;
          sessionId := sessionId st;
          history := history st |}.
Proof.
  destruct o as [d|e].
  - destruct (is_nullish d) eqn:Hd.
    + right. unfold handleSend_resume, member; simpl. rewrite Hd. reflexivity.
    + left. exists d. split; [reflexivity|]. split; [exact Hd|].
      unfold handleSend_resume, member; simpl. rewrite Hd. reflexivity.
  - right. reflexivity.
Qed.

(** A click followed at once by its answer is a run of [handleSend]. *)
Lemma click_then_settle (net : request -> fetch_result) (st : ChatState) :
  nonempty (trim (query st)) = true ->
  act (act {| shown := st; waiting := [] |} (Clicks net)) (Settles 0)
  = {| shown := chat_after st (trace (handleSend net st)); waiting := [] |}.
Proof.
  intros Hq. unfold act at 2. simpl shown. rewrite Hq.
  unfold act. simpl nth_error. cbv iota. simpl captured. simpl outcome.
  simpl waiting. simpl shown. f_equal.
  rewrite (handleSend_split net st Hq).
  destruct (sendChat_ends net st) as [[d Hd]|[e He]].
  - rewrite Hd. unfold handleSend_click, handleSend_resume, member. simpl.
    destruct (is_nullish d); reflexivity.
  - rewrite He. reflexivity.
Qed.

Lemma in_without_nth {A} (k : nat) (l : list A) (x : A) :
  In x (firstn k l ++ skipn (S k) l) -> In x l.
Proof.
  revert k. induction l as [|y l IH]; intros k Hin.
  - destruct k; simpl in Hin; exact Hin.
  - destruct k as [|k]; simpl in Hin.
    + right. exact Hin.
    + destruct Hin as [->|Hin]; [left; reflexivity|right; exact (IH k Hin)].
Qed.

(** One event keeps both facts. *)
Lemma act_keeps_shown (p : page) (a : action) :
  history_shown (shown p) -> waiting_shown p ->
  history_shown (shown (act p a)) /\ waiting_shown (act p a).
Proof.
  intros Hh Hw. destruct a as [q|net|k]; simpl.
  - split; [exact Hh|exact Hw].
  - destruct (nonempty (trim (query (shown p)))); [|split; assumption].
    split.
    + intros q r Hin. simpl in Hin |- *.
      destruct (Hh q r Hin) as [l1 [l2 [l3 Hm]]].
      exists l1, l2, (l3 ++ [{| msg_role := "user";
                                msg_content := JStr (query (shown p)) |}])%list.
      rewrite Hm. rewrite <- app_assoc. simpl. rewrite <- app_assoc. reflexivity.
    + intros w Hin. simpl in Hin |- *.
      apply in_app_or in Hin. destruct Hin as [Hin|[<-|[]]].
      * destruct (Hw w Hin) as [l1 [l2 Hm]].
        exists l1, (l2 ++ [{| msg_role := "user";
                              msg_content := JStr (query (shown p)) |}])%list.
        rewrite Hm. rewrite <- app_assoc. reflexivity.
      * exists (messages (shown p)), []. reflexivity.
  - destruct (nth_error (waiting p) k) as [w|] eqn:Hk; [|split; assumption].
    assert (Hwk : In w (waiting p)) by (eapply nth_error_In; eassumption).
    destruct (Hw w Hwk) as [k1 [k2 Hmw]].
    destruct (resume_cases (shown p) (captured w) (outcome w))
      as [[d [_ [_ Hst]]]|Hst]; simpl shown; rewrite Hst; split.
    + intros q r Hin. simpl in Hin |- *.
      apply in_app_or in Hin. destruct Hin as [Hin|[Heq|[]]].
      * destruct (Hh q r Hin) as [l1 [l2 [l3 Hm]]].
        exists l1, l2, (l3 ++ [{| msg_role := "bot";
                                  msg_content := get d "result" |}])%list.
        rewrite Hm. rewrite <- app_assoc. simpl. rewrite <- app_assoc. reflexivity.
      * inversion Heq; subst q r. exists k1, k2, [].
        rewrite Hmw. rewrite <- app_assoc. reflexivity.
    + intros w' Hin. simpl in Hin |- *.
      destruct (Hw w' (in_without_nth k _ w' Hin)) as [l1 [l2 Hm]].
      exists l1, (l2 ++ [{| msg_role := "bot";
                            msg_content := get d "result" |}])%list.
      rewrite Hm. rewrite <- app_assoc. reflexivity.
    + intros q r Hin. simpl in Hin |- *.
      destruct (Hh q r Hin) as [l1 [l2 [l3 Hm]]].
      exists l1, l2, (l3 ++ [{| msg_role := "bot";
                                msg_content := JStr "Error from server." |}])%list.
      rewrite Hm. rewrite <- app_assoc. simpl. rewrite <- app_assoc. reflexivity.
    + intros w' Hin. simpl in Hin |- *.
      destruct (Hw w' (in_without_nth k _ w' Hin)) as [l1 [l2 Hm]].
      exists l1, (l2 ++ [{| msg_role := "bot";
                            msg_content := JStr "Error from server." |}])%list.
      rewrite Hm. rewrite <- app_assoc. reflexivity.
Qed.

(** X14. Sends may overlap: the user can type and click Send again while
    earlier calls still wait, and the waiting calls may resume in any
    order.  From the page as mounted, after any such sequence of events,
    every pair kept in the history is on display: its query as a user
    message and, after it, its reply as a bot message. *)
Theorem overlapping_sends_keep_history_shown
    (uuid : string) (events : list action) :
  history_shown (shown (page_after uuid events)).
Proof.
  unfold page_after.
  assert (Hgen : forall p, history_shown (shown p) -> waiting_shown p ->
                           history_shown (shown (fold_left act events p))).
  { induction events as [|a events IH]; intros p Hh Hw.
    - exact Hh.
    - simpl. destruct (act_keeps_shown p a Hh Hw) as [Hh' Hw'].
      exact (IH (act p a) Hh' Hw'). }
  apply Hgen.
  - intros q r [].
  - intros w [].
Qed.

(** X15. Every request issued during a conversation is a POST to the chat
    endpoint that carries the session id the page started with. *)
Theorem chat_session_keeps_session_id
    (st : ChatState) (turns : list (string * (request -> fetch_result)))
    (ev : event) :
  In ev (session_log st turns) -> is_request ev = true ->
  exists r, ev = Fetch r
            /\ url r = "http://localhost:8000/chat"
            /\ method r = "POST"
            /\ session_id_of r = JStr (sessionId st).
Proof.
  revert st. induction turns as [|[q net] turns IH]; intros st Hin Hreq.
  - destruct Hin.
  - simpl in Hin. apply in_app_or in Hin. destruct Hin as [Hin|Hin].
    + assert (Hf : In ev (filter is_request
                            (trace (run_page net (Do_handleSend (type_query st q)))))).
      { apply filter_In. split; assumption. }
      rewrite run_page_requests in Hf. simpl request_of in Hf.
      destruct (nonempty _); simpl in Hf; [|contradiction].
      destruct Hf as [<-|[]]. eexists. repeat split.
    + destruct (IH (send net q st) Hin Hreq) as [r [-> [Hu [Hm Hs]]]].
      exists r. rewrite (send_keeps_session_id st q net) in Hs.
      repeat split; assumption.
Qed.

(** X16. [sendChat] returns exactly when its request is answered 2xx with a
    JSON body, and then returns that body unchanged; for any other status it
    throws an error that names the status. *)
Theorem sendChat_returns_iff
    (net : request -> fetch_result) (a : SendChatArgs) (data : jsval) :
  let req := chat_request (arg_query a) (arg_session_id a) (arg_chat_history a)
               match arg_role a with Some r => r | None => "general" end in
  (snd (sendChat net a) = Returned data
   <-> exists res, net req = Resolved res /\ ok res = true /\ json res = Some data)
  /\ (forall res, net req = Resolved res -> ok res = false ->
      snd (sendChat net a)
      = Thrown (Error ("Chat API failed with " ++ Z_to_string (status res)))).
Proof.
  intros req. unfold sendChat, fetch. fold req.
  change {| url := "http://localhost:8000/chat"; method := "POST";
            headers := [("Content-Type", "application/json")];
            credentials := None;
            body := JsonBody
                      (JObj [("query", JStr (arg_query a));
                             ("session_id", JStr (arg_session_id a));
                             ("chat_history", chat_history_json (arg_chat_history a));
                             ("role", JStr match arg_role a with
                                           | Some r => r | None => "general"
                                           end)]) |}
    with req.
  destruct (net req) as [|res]; simpl.
  - split.
    + split; [discriminate|]. intros [res [H _]]. discriminate H.
    + intros res H. discriminate H.
  - destruct (ok res) eqn:Hok; simpl.
    + unfold res_json. destruct (json res) as [d|] eqn:Hjson; simpl.
      * split.
        -- split.
           ++ intros H. inversion H; subst d. exists res. auto.
           ++ intros [res' [H [_ Hj]]]. inversion H; subst res'.
              rewrite Hjson in Hj. inversion Hj. reflexivity.
        -- intros res' H Hok'. inversion H; subst res'.
           rewrite Hok in Hok'. discriminate Hok'.
      * split.
        -- split; [discriminate|].
           intros [res' [H [_ Hj]]]. inversion H; subst res'.
           rewrite Hjson in Hj. discriminate Hj.
        -- intros res' H Hok'. inversion H; subst res'.
           rewrite Hok in Hok'. discriminate Hok'.
    + split.
      * split; [discriminate|].
        intros [res' [H [Hok' _]]]. inversion H; subst res'.
        rewrite Hok in Hok'. discriminate Hok'.
      * intros res' H _. inversion H; subst res'. reflexivity.
Qed.

(** ** The chat route, in full *)

(** X17. The chat route asks Groq for a completion only for a request whose
    body is JSON other than [null] and whose [messages] (an absent or falsy
    one counting as empty) is an array without [null] elements; it then asks
    once, forwarding for each message, in order, an object with just its
    [role] and [content].  Any other request is answered 500 without Groq
    being contacted. *)
Theorem POST_forwards_role_and_content
    (groq : jsval -> string -> result jsval) (req : option jsval) :
  (forall items,
     forwardable req items ->
     exists rest,
       trace (POST groq req)
       = GroqCreate
           (JArr (map (fun msg => JObj [("role", get msg "role");
                                        ("content", get msg "content")]) items))
           "mixtral-8x7b-32768"
         :: rest
       /\ count_requests rest = 0%nat)
  /\ ((forall items, ~ forwardable req items) ->
      exists e,
        POST groq req
        = ([ConsoleError (Some "Chat error:") e],
           Returned {| resp_status := 500;
                       resp_body := JObj [("error", JStr "Chat failed")] |})).
Proof.
  split.
  - intros items [body [-> [Hbody [Hm Hitems]]]].
    rewrite (POST_reaches_groq groq body items Hbody Hm Hitems).
    destruct (groq _ _) as [completion|e];
      [destruct (is_nullish completion)|]; eexists; split; reflexivity.
  - intros Hnone.
    destruct (POST_bad_request groq req)
      as [[body [items [Hreq [Hbody [Hm Hitems]]]]]|[e He]].
    + exfalso. apply (Hnone items). exists body. auto.
    + exists e. exact He.
Qed.

(** X18. The reply of the chat route is taken from the first choice of the
    completion alone: its [message.content] when that is truthy, the empty
    string otherwise; further choices are ignored. *)
Theorem POST_replies_with_first_choice
    (groq : jsval -> string -> result jsval) (req : option jsval)
    (items : list jsval) (fields : list (string * jsval))
    (choice : jsval) (others : list jsval) :
  forwardable req items ->
  groq (JArr (map groq_message items)) "mixtral-8x7b-32768"
  = Returned (JObj fields) ->
  lookup "choices" fields = JArr (choice :: others) ->
  snd (POST groq req)
  = Returned
      {| resp_status := 200;
         resp_body :=
           JObj [("role", JStr "assistant");
                 ("content",
                  if truthy (opt_get (opt_get choice "message") "content")
                  then opt_get (opt_get choice "message") "content"
                  else JStr "")] |}.
Proof.
  intros [body [-> [Hbody [Hm Hitems]]]] Hgroq Hchoices.
  rewrite (POST_reaches_groq groq body items Hbody Hm Hitems).
  unfold model_name. rewrite Hgroq. simpl is_nullish. cbv iota.
  unfold reply_of, or_else. simpl get. rewrite Hchoices. reflexivity.
Qed.

(** ** The sidebar *)

(** X19. The sidebar shows its four links in a fixed order and highlights
    at most one of them: the one whose target is the current path, if any;
    on any other path no link is highlighted. *)
Theorem Sidebar_highlights_current (pathname : string) :
  map link_href (Sidebar pathname)
  = ["/dashboard/kb-upload"; "/dashboard/chat"; "/dashboard/leads";
     "/dashboard/sync-logs"]
  /\ map link_href (filter highlighted (Sidebar pathname))
     = (if existsb (String.eqb pathname) (map fst navItems) then [pathname] else []).
Proof.
  split; [reflexivity|].
  unfold Sidebar, navItems, highlighted. simpl.
  destruct (String.eqb_spec pathname "/dashboard/kb-upload") as [->|_];
    [reflexivity|].
  destruct (String.eqb_spec pathname "/dashboard/chat") as [->|_];
    [reflexivity|].
  destruct (String.eqb_spec pathname "/dashboard/leads") as [->|_];
    [reflexivity|].
  destruct (String.eqb_spec pathname "/dashboard/sync-logs") as [->|_];
    reflexivity.
Qed.

(** ** Logging out *)

(** X20. Both logout handlers announce "Logged out" and go to the login
    page exactly when the logout request gets a response, whatever its
    status; when the request is rejected they end with the rejection
    unhandled, having shown and done nothing. *)
Theorem handleLogout_navigates_iff_answered (net : request -> fetch_result) :
  (In (RouterPush "/login") (trace (KBUploadPage_handleLogout net))
   <-> exists res, net logout_request = Resolved res)
  /\ (In (RouterPush "/login") (trace (DashboardLayout_handleLogout net))
      <-> exists res, net logout_request = Resolved res)
  /\ (net logout_request = Rejected ->
      KBUploadPage_handleLogout net = ([Fetch logout_request], Thrown NetworkError)
      /\ DashboardLayout_handleLogout net
         = ([Fetch logout_request], Thrown NetworkError))
  /\ (forall res, net logout_request = Resolved res ->
      filter is_toast (trace (KBUploadPage_handleLogout net))
      = [ToastSuccess (JStr "Logged out")]
      /\ filter is_toast (trace (DashboardLayout_handleLogout net))
         = [ToastSuccess (JStr "Logged out")]).
Proof.
  unfold KBUploadPage_handleLogout, DashboardLayout_handleLogout, fetch.
  destruct (net logout_request) as [|res]; simpl.
  - split; [|split; [|split]].
    + split; [intros [H|[]]; discriminate H|intros [res H]; discriminate H].
    + split; [intros [H|[]]; discriminate H|intros [res H]; discriminate H].
    + intros _. split; reflexivity.
    + intros res H. discriminate H.
  - split; [|split; [|split]].
    + split; [intros _; exists res; reflexivity|intros _; auto].
    + split; [intros _; exists res; reflexivity|intros _; auto].
    + intros H. discriminate H.
    + intros res' _. split; reflexivity.
Qed.

End Dashboard.

(** * Runs on the reference runtime *)

#[local] Existing Instance reference_runtime.

(** A question answered by the backend, followed by a second question. *)
Lemma handleSend_exchange_witness :
  nonempty (trim (query sample_state)) = true
  /\ history (chat_after sample_state
                (trace (handleSend (answering 200 (Some sample_reply)) sample_state)))
     = [("What is Amity?", JStr "A university.")]
  /\ exists rest,
       trace (handleSend unreachable
                (type_query
                   (chat_after sample_state
                      (trace (handleSend (answering 200 (Some sample_reply))
                                sample_state)))
                   "And where?"))
       = SetState (SetMessages_append {| msg_role := "user";
                                         msg_content := JStr "And where?" |})
         :: Fetch
              {| url := "http://localhost:8000/chat";
                 method := "POST";
                 headers := [("Content-Type", "application/json")];
                 credentials := None;
                 body :=
                   JsonBody
                     (JObj [("query", JStr "And where?");
                            ("session_id", JStr "session-1");
                            ("chat_history",
                             JArr [JArr [JStr "What is Amity?";
                                         JStr "A university."]]);
                            ("role", JStr "general")]) |}
         :: rest.
Proof.
  split; [reflexivity|].
  destruct (handleSend_exchange (RT := reference_runtime)
              (answering 200 (Some sample_reply)) unreachable
              sample_state {| status := 200; json := Some sample_reply |}
              sample_reply "And where?" eq_refl) as [_ H].
  destruct (H eq_refl eq_refl eq_refl eq_refl) as [_ [_ [Hhist Hnext]]].
  split; [exact Hhist|exact (Hnext eq_refl)].
Defined.

(** The answer handed back by [sendChat] and what [handleSend] keeps of it. *)
Lemma sendChat_request_and_result_witness :
  snd (sendChat (answering 200 (Some sample_reply)) (send_args sample_state))
  = Returned sample_reply
  /\ filter (fun ev => negb (is_request ev))
       (trace (handleSend (answering 200 (Some sample_reply)) sample_state))
     = [SetState (SetMessages_append (user_message "What is Amity?"));
        SetState (SetMessages_append (bot_message (JStr "A university.")));
        SetState (SetHistory_append ("What is Amity?", JStr "A university."));
        SetState (SetQuery "")].
Proof.
  destruct (sendChat_request_and_result (RT := reference_runtime)
              (answering 200 (Some sample_reply))
              (send_args sample_state) sample_state
              {| status := 200; json := Some sample_reply |} sample_reply)
    as [_ H].
  destruct (H eq_refl eq_refl eq_refl) as [Hret Hlog].
  split; [exact Hret|exact (Hlog eq_refl eq_refl)].
Defined.


(** The history after a 503 and after an answered question. *)
Lemma history_grows_iff_reply_read_witness :
  history (chat_after sample_state
             (trace (handleSend (answering 503 None) sample_state)))
  = history sample_state
  /\ history (chat_after sample_state
                (trace (handleSend (answering 200 (Some sample_reply)) sample_state)))
     = [("What is Amity?", JStr "A university.")].
Proof.
  split.
  - destruct (history_grows_iff_reply_read (RT := reference_runtime)
              (answering 503 None) sample_state)
      as [_ [_ H]].
    refine (proj1 (H eq_refl _)).
    intros [data [Hdata _]]. discriminate Hdata.
  - destruct (history_grows_iff_reply_read (RT := reference_runtime)
              (answering 200 (Some sample_reply))
                sample_state) as [_ [H _]].
    exact (proj1 (H sample_reply eq_refl eq_refl eq_refl)).
Defined.

(** A request without messages, a completion without choices. *)
Lemma POST_route_contract_witness :
  POST (fun _ _ => Returned (JObj [("choices", JArr [])])) (Some (JObj []))
  = ([GroqCreate (JArr []) "mixtral-8x7b-32768"],
     Returned {| resp_status := 200;
                 resp_body := JObj [("role", JStr "assistant");
                                    ("content", JStr "")] |})
  /\ POST (fun _ _ => Thrown GroqError)
       (Some (JObj [("messages",
                     JArr [JObj [("role", JStr "user"); ("content", JStr "Hi")]])]))
     = ([GroqCreate (JArr [JObj [("role", JStr "user"); ("content", JStr "Hi")]])
           "mixtral-8x7b-32768";
         ConsoleError (Some "Chat error:") GroqError],
        Returned {| resp_status := 500;
                    resp_body := JObj [("error", JStr "Chat failed")] |})
  /\ POST (fun _ _ => Returned sample_completion) (Some (JObj [("messages", JStr "Hi")]))
     = ([ConsoleError (Some "Chat error:") TypeError],
        Returned {| resp_status := 500;
                    resp_body := JObj [("error", JStr "Chat failed")] |})
  /\ POST (fun _ _ => Returned sample_completion) (Some JNull)
     = ([ConsoleError (Some "Chat error:") TypeError],
        Returned {| resp_status := 500;
                    resp_body := JObj [("error", JStr "Chat failed")] |})
  /\ POST (fun _ _ => Returned sample_completion) (Some (JObj []))
     = ([GroqCreate (JArr []) "mixtral-8x7b-32768"],
        Returned {| resp_status := 200;
                    resp_body := JObj [("role", JStr "assistant");
                                       ("content", JStr "Hello")] |}).
Proof.
  split; [|split; [|split; [|split]]].
  - destruct (POST_route_contract (RT := reference_runtime)
                (fun _ _ => Returned (JObj [("choices", JArr [])])) None
                (JObj []) [] (JObj [("choices", JArr [])]) JNull [] GroqError)
      as [_ [_ [_ [H _]]]].
    destruct (H eq_refl (or_intror (conj eq_refl eq_refl)) (Forall_nil _))
      as [_ [_ [Hempty _]]].
    exact (Hempty eq_refl eq_refl (or_intror eq_refl)).
  - destruct (POST_route_contract (RT := reference_runtime)
                (fun _ _ => Thrown GroqError) None
                (JObj [("messages",
                        JArr [JObj [("role", JStr "user"); ("content", JStr "Hi")]])])
                [JObj [("role", JStr "user"); ("content", JStr "Hi")]]
                JNull JNull [] GroqError)
      as [_ [_ [_ [H _]]]].
    refine (proj1 (H eq_refl (or_introl eq_refl) _) eq_refl).
    repeat constructor.
  - destruct (POST_route_contract (RT := reference_runtime)
                (fun _ _ => Returned sample_completion) None
                (JObj [("messages", JStr "Hi")]) [] JNull JNull [] GroqError)
      as [_ [_ [H _]]].
    exact (H eq_refl I).
  - destruct (POST_route_contract (RT := reference_runtime)
                (fun _ _ => Returned sample_completion) None
                JNull [] JNull JNull [] GroqError)
      as [_ [H _]].
    exact (H eq_refl).
  - destruct (POST_route_contract (RT := reference_runtime)
                (fun _ _ => Returned sample_completion) None
                (JObj []) [] sample_completion
                (JObj [("message", JObj [("content", JStr "Hello")])]) [] GroqError)
      as [_ [_ [_ [H _]]]].
    destruct (H eq_refl (or_intror (conj eq_refl eq_refl)) (Forall_nil _))
      as [_ [_ [_ [Hfirst _]]]].
    exact (Hfirst eq_refl eq_refl eq_refl).
Defined.

(** A login attempt with the password left empty. *)
Lemma empty_inputs_send_nothing_witness :
  handleLogin unreachable "admin" ""
  = ([ToastError (JStr "Please enter username and password")], Returned tt).
Proof.
  destruct (empty_inputs_send_nothing (RT := reference_runtime) unreachable "admin" "") as [H _].
  exact (proj1 (H (or_intror eq_refl))).
Defined.

(** A backend that answers 503, and one that cannot be reached. *)
Lemma failures_surface_where_handled_witness :
  (exists e,
     handleSend (answering 503 None) sample_state
     = ([SetState (SetMessages_append (user_message "What is Amity?"));
         Fetch (chat_request "What is Amity?" "session-1" [] "general");
         ConsoleError None e;
         SetState (SetMessages_append error_message);
         SetState (SetQuery "")],
        Returned tt))
  /\ (exists msg,
        filter is_toast (trace (handleLogin (answering 503 None) "admin" "secret"))
        = [ToastError msg])
  /\ fetchSession unreachable
     = ([Fetch check_session_request;
         ConsoleError (Some "Session check failed:") NetworkError;
         RouterReplace "/login";
         SetState (SetLoading false)],
        Returned tt).
Proof.
  destruct (failures_surface_where_handled (RT := reference_runtime)
              (answering 503 None) sample_state
              "admin" "secret" {| status := 503; json := None |}
              Do_handleReindex) as [Hsend [Hlogin _]].
  destruct (failures_surface_where_handled (RT := reference_runtime) unreachable sample_state
              "admin" "secret" {| status := 503; json := None |}
              Do_fetchSession) as [_ [_ [Hsession _]]].
  split; [exact (Hsend eq_refl eq_refl)|].
  split; [exact (proj2 (Hlogin eq_refl eq_refl eq_refl))|].
  exact (Hsession eq_refl).
Defined.

(** The request of the leads page. *)
Lemma requests_target_backend_or_groq_witness :
  exists r,
    Fetch (get_request "http://localhost:8000/leads") = Fetch r
    /\ (is_endpoint_of API_BASE (url r) = true
        \/ url r = "http://localhost:8000/chat").
Proof.
  destruct (requests_target_backend_or_groq (RT := reference_runtime)
              unreachable (fun _ _ => Thrown GroqError)
              Do_LeadsPage_effect None
              (Fetch (get_request "http://localhost:8000/leads"))) as [H _].
  exact (H (or_introl eq_refl) eq_refl).
Defined.

(** The claims at the inputs where the code departs from them. *)

(** C1 as stated fails: a 2xx answer whose body is [null] is a successful
    call, yet [handleSend] shows the error message instead of a reply and
    stores no pair. *)
Lemma reply_not_appended_on_null_body :
  ~ (forall (net : request -> fetch_result) (st : ChatState) (data : jsval),
       nonempty (trim (query st)) = true ->
       snd (sendChat net (send_args st)) = Returned data ->
       messages (chat_after st (trace (handleSend net st)))
       = (messages st
          ++ [{| msg_role := "user"; msg_content := JStr (query st) |};
              {| msg_role := "bot"; msg_content := get data "result" |}])%list
       /\ history (chat_after st (trace (handleSend net st)))
          = (history st ++ [(query st, get data "result")])%list).
Proof.
  intros Hclaim.
  destruct (Hclaim (answering 200 (Some JNull)) sample_state JNull eq_refl eq_refl)
    as [_ Hhist].
  discriminate Hhist.
Qed.

(** C8 as stated fails: a 2xx answer whose body is [null] makes [sendChat]
    return, yet [handleSend] appends nothing to the history. *)
Lemma history_unchanged_on_null_reply :
  ~ (forall (net : request -> fetch_result) (st : ChatState),
       nonempty (trim (query st)) = true ->
       (returns (sendChat net (send_args st)) = true <->
        exists p, history (chat_after st (trace (handleSend net st)))
                  = (history st ++ [p])%list)).
Proof.
  intros Hclaim.
  destruct (proj1 (Hclaim (answering 200 (Some JNull)) sample_state eq_refl) eq_refl)
    as [p Hp].
  discriminate Hp.
Qed.

(** C4 as stated fails: when the backend cannot be reached, the leads fetch
    issues its request and the rejection is neither caught nor shown. *)
Lemma leads_fetch_failure_is_silent :
  ~ (forall (net : request -> fetch_result) (a : page_action),
       (forall r, failed (net r) = true) ->
       (1 <= count_requests (trace (run_page net a)))%nat ->
       returns (run_page net a) = true
       /\ existsb user_facing (trace (run_page net a)) = true).
Proof.
  intros Hclaim.
  destruct (Hclaim unreachable Do_LeadsPage_effect (fun _ => eq_refl) (le_n 1))
    as [Hcaught _].
  discriminate Hcaught.
Qed.

(** C5 as stated fails: the chat route sends its request to Groq, which is
    none of the backend endpoints. *)
Lemma chat_route_contacts_groq :
  ~ (forall (net : request -> fetch_result) (groq : jsval -> string -> result jsval)
            (a : page_action) (req : option jsval) (ev : event),
       In ev (trace (run_page net a)) \/ In ev (trace (POST groq req)) ->
       is_request ev = true -> targets_backend ev = true).
Proof.
  intros Hclaim.
  specialize (Hclaim unreachable (fun _ _ => Returned sample_completion)
                Do_handleReindex (Some (JObj []))
                (GroqCreate (JArr []) "mixtral-8x7b-32768")
                (or_intror (or_introl eq_refl)) eq_refl).
  discriminate Hclaim.
Qed.


(** Further runs on the reference runtime. *)

(** A session check answered 401 with an error payload. *)
Lemma checkSession_grants_only_logged_in_witness :
  DashboardHome_render
    (role_after None
       (trace (DashboardHome_checkSession
                 (answering 401 (Some (JObj [("detail", JStr "Not authenticated")]))))))
  = VElem "p" None [VText "Checking session..."]
  /\ DashboardLayout_render
       (role_after None
          (trace (DashboardLayout_checkSession
                    (answering 200 (Some (JObj [("role", JStr "logged_in")]))))))
       (VText "page")
     = VElem "div" None
         [VElem "nav" None
            [VElem "div" None [VElem "Link" None [VText "Home"];
                               VElem "Link" None [VText "Chat"];
                               VElem "Link" None [VText "KB Upload"]];
             VElem "button" None [VText "Logout"]];
          VElem "main" None [VText "page"]].
Proof.
  split.
  - destruct (checkSession_grants_only_logged_in (RT := reference_runtime)
                (answering 401 (Some (JObj [("detail", JStr "Not authenticated")])))
                (VText "page")) as [_ [_ [H _]]].
    exact (proj1 (H eq_refl)).
  - destruct (checkSession_grants_only_logged_in (RT := reference_runtime)
                (answering 200 (Some (JObj [("role", JStr "logged_in")])))
                (VText "page")) as [_ [_ [_ H]]].
    exact (proj2 (H eq_refl)).
Defined.

(** A login that the backend accepts. *)
Lemma handleLogin_one_toast_witness :
  In (RouterReplace "/dashboard/kb-upload")
     (trace (handleLogin (answering 200 None) "admin" "secret")).
Proof.
  destruct (handleLogin_one_toast (RT := reference_runtime)
              (answering 200 None) "admin" "secret") as [_ [_ H]].
  apply (proj2 H). split; [reflexivity|]. split; [reflexivity|].
  exists {| status := 200; json := None |}. split; reflexivity.
Defined.

(** A login that the backend refuses with a reason. *)
Lemma handleLogin_error_text_witness :
  filter is_toast
    (trace (handleLogin
              (answering 401 (Some (JObj [("detail", JStr "Invalid credentials")])))
              "admin" "secret"))
  = [ToastError (JStr "Invalid credentials")].
Proof.
  exact (handleLogin_error_text (RT := reference_runtime)
           (answering 401 (Some (JObj [("detail", JStr "Invalid credentials")])))
           "admin" "secret"
           {| status := 401;
              json := Some (JObj [("detail", JStr "Invalid credentials")]) |}
           eq_refl eq_refl eq_refl eq_refl).
Defined.

(** An upload that the backend accepts. *)
Lemma handleUpload_success_iff_ok_witness :
  In (ToastSuccess (JStr "✅ File uploaded and indexed"))
     (trace (handleUpload (answering 201 None) (Some sample_file))).
Proof.
  destruct (handleUpload_success_iff_ok (RT := reference_runtime)
              (answering 201 None) (Some sample_file)) as [H _].
  apply (proj2 H). exists sample_file, {| status := 201; json := None |}.
  repeat split.
Defined.

(** An upload refused with a message, and one refused without. *)
Lemma handleUpload_failure_text_witness :
  handleUpload (answering 413 (Some (JObj [("message", JStr "File too large")])))
    (Some sample_file)
  = ([Fetch (upload_request sample_file);
      ToastError (JStr "❌ Upload failed: File too large")], Returned tt)
  /\ handleUpload (answering 400 (Some (JObj []))) (Some sample_file)
     = ([Fetch (upload_request sample_file);
         ToastError (JStr "❌ Upload failed: Unknown error")], Returned tt).
Proof.
  split.
  - exact (proj1 (handleUpload_failure_text (RT := reference_runtime)
                    (answering 413 (Some (JObj [("message", JStr "File too large")])))
                    sample_file
                    {| status := 413;
                       json := Some (JObj [("message", JStr "File too large")]) |}
                    [("message", JStr "File too large")] "File too large"
                    eq_refl eq_refl eq_refl)
             eq_refl eq_refl).
  - exact (proj2 (handleUpload_failure_text (RT := reference_runtime)
                    (answering 400 (Some (JObj []))) sample_file
                    {| status := 400; json := Some (JObj []) |} [] ""
                    eq_refl eq_refl eq_refl)
             (or_introl eq_refl)).
Defined.

(** A list with a [null] in it, and a list of two leads. *)
Lemma list_render_throws_iff_witness :
  LeadsPage_render (JArr [JNull]) = ([], Thrown TypeError)
  /\ returns (LeadsPage_render (JArr sample_leads)) = true.
Proof.
  split.
  - exact (proj1 (proj1 (list_render_throws_iff (RT := reference_runtime)
                           (JArr [JNull]) []) eq_refl)).
  - rewrite (proj1 (proj2 (list_render_throws_iff (RT := reference_runtime)
                             JNull sample_leads) eq_refl)).
    reflexivity.
Defined.

(** Both list endpoints answer [null]. *)
Lemma list_pages_fall_back_to_empty_witness :
  LeadsPage_effect (answering 200 (Some JNull))
  = ([Fetch {| url := "http://localhost:8000/leads"; method := "GET"; headers := [];
               credentials := None; body := NoBody |};
      SetState (SetLeads (JArr []))],
     Returned tt).
Proof.
  destruct (list_pages_fall_back_to_empty (RT := reference_runtime)
              (answering 200 (Some JNull))
              {| status := 200; json := Some JNull |}
              {| status := 200; json := Some JNull |} JNull JNull) as [H _].
  exact (proj1 (H eq_refl eq_refl eq_refl)).
Defined.

(** Both list endpoints answer 500 with an error payload. *)
Lemma list_pages_store_error_payload_witness :
  LeadsPage_render
    (leads_after (JArr [])
       (trace (LeadsPage_effect
                 (answering 500 (Some (JObj [("detail", JStr "Server error")]))))))
  = ([], Thrown TypeError).
Proof.
  destruct (list_pages_store_error_payload (RT := reference_runtime)
              (answering 500 (Some (JObj [("detail", JStr "Server error")])))
              {| status := 500; json := Some (JObj [("detail", JStr "Server error")]) |}
              {| status := 500; json := Some (JObj [("detail", JStr "Server error")]) |}
              [("detail", JStr "Server error")] [("detail", JStr "Server error")])
    as [H _].
  exact (proj2 (proj2 (H eq_refl eq_refl))).
Defined.

(** A first question while the backend cannot be reached. *)
Lemma send_adds_two_bubbles_witness :
  ChatPage_messages
    (messages (chat_after sample_state (trace (handleSend unreachable sample_state))))
  = [{| bubble_key := 0; bubble_class := "text-right"; bubble_label := "You";
        bubble_content := JStr "What is Amity?" |};
     {| bubble_key := 1; bubble_class := "text-left"; bubble_label := "AmityBot";
        bubble_content := JStr "Error from server." |}].
Proof.
  exact (send_adds_two_bubbles (RT := reference_runtime) unreachable sample_state
           eq_refl).
Defined.

(** The request of the second turn of a conversation. *)
Lemma chat_session_keeps_session_id_witness :
  exists r,
    Fetch (chat_request "And where?" "session-1"
             [("What is Amity?", JStr "A university.")] "general") = Fetch r
    /\ url r = "http://localhost:8000/chat"
    /\ method r = "POST"
    /\ session_id_of r = JStr "session-1".
Proof.
  apply (chat_session_keeps_session_id (RT := reference_runtime)
           sample_state
           [("What is Amity?", answering 200 (Some sample_reply));
            ("And where?", unreachable)]).
  - simpl. right. right. right. right. right. right. left. reflexivity.
  - reflexivity.
Defined.

(** A chat call that is answered, and one that is refused. *)
Lemma sendChat_returns_iff_witness :
  snd (sendChat (answering 200 (Some sample_reply)) (send_args sample_state))
  = Returned sample_reply
  /\ snd (sendChat (answering 429 None) (send_args sample_state))
     = Thrown (Error "Chat API failed with 429").
Proof.
  split.
  - destruct (sendChat_returns_iff (RT := reference_runtime)
                (answering 200 (Some sample_reply)) (send_args sample_state)
                sample_reply) as [H _].
    apply (proj2 H). exists {| status := 200; json := Some sample_reply |}.
    repeat split.
  - destruct (sendChat_returns_iff (RT := reference_runtime)
                (answering 429 None) (send_args sample_state) JNull) as [_ H].
    exact (H {| status := 429; json := None |} eq_refl eq_refl).
Defined.

(** A request with one message that carries an extra field, and a request
    whose [messages] is a string. *)
Lemma POST_forwards_role_and_content_witness :
  (exists rest,
     trace (POST (fun _ _ => Returned sample_completion)
              (Some (JObj [("messages",
                            JArr [JObj [("role", JStr "user");
                                        ("content", JStr "Hi");
                                        ("id", JStr "m1")]])])))
     = GroqCreate (JArr [JObj [("role", JStr "user"); ("content", JStr "Hi")]])
         "mixtral-8x7b-32768" :: rest
     /\ count_requests rest = 0%nat)
  /\ exists e,
       POST (fun _ _ => Returned sample_completion)
         (Some (JObj [("messages", JStr "Hi")]))
       = ([ConsoleError (Some "Chat error:") e],
          Returned {| resp_status := 500;
                      resp_body := JObj [("error", JStr "Chat failed")] |}).
Proof.
  split.
  - apply (proj1 (POST_forwards_role_and_content (RT := reference_runtime)
                    (fun _ _ => Returned sample_completion)
                    (Some (JObj [("messages",
                                  JArr [JObj [("role", JStr "user");
                                              ("content", JStr "Hi");
                                              ("id", JStr "m1")]])])))
             [JObj [("role", JStr "user"); ("content", JStr "Hi"); ("id", JStr "m1")]]).
    eexists. split; [reflexivity|]. split; [reflexivity|].
    split; [reflexivity|]. repeat constructor.
  - apply (proj2 (POST_forwards_role_and_content (RT := reference_runtime)
                    (fun _ _ => Returned sample_completion)
                    (Some (JObj [("messages", JStr "Hi")])))).
    intros items [body [Hreq [_ [Hm _]]]]. inversion Hreq; subst body.
    discriminate Hm.
Defined.

(** A completion with one choice. *)
Lemma POST_replies_with_first_choice_witness :
  snd (POST (fun _ _ => Returned sample_completion) (Some (JObj [])))
  = Returned {| resp_status := 200;
                resp_body := JObj [("role", JStr "assistant");
                                   ("content", JStr "Hello")] |}.
Proof.
  apply (POST_replies_with_first_choice (RT := reference_runtime)
           (fun _ _ => Returned sample_completion) (Some (JObj [])) []
           [("choices", JArr [JObj [("message", JObj [("content", JStr "Hello")])]])]
           (JObj [("message", JObj [("content", JStr "Hello")])]) []).
  - exists (JObj []). repeat split. constructor.
  - reflexivity.
  - reflexivity.
Defined.

(** A logout that the backend refuses. *)
Lemma handleLogout_navigates_iff_answered_witness :
  In (RouterPush "/login") (trace (KBUploadPage_handleLogout (answering 500 None))).
Proof.
  destruct (handleLogout_navigates_iff_answered (RT := reference_runtime)
              (answering 500 None)) as [H _].
  apply (proj2 H). exists {| status := 500; json := None |}. reflexivity.
Defined.

(** Two sends that overlap: the second question is sent before the first
    answer arrives, and the answers arrive in the order of the questions. *)
Lemma overlapping_sends_example :
  messages
    (shown
       (page_after "session-1"
          [Types "What is Amity?";
           Clicks (answering 200 (Some sample_reply));
           Types "And where?";
           Clicks (answering 200 (Some (JObj [("result", JStr "In Noida.")])));
           Settles 0;
           Settles 0]))
  = [{| msg_role := "user"; msg_content := JStr "What is Amity?" |};
     {| msg_role := "user"; msg_content := JStr "And where?" |};
     {| msg_role := "bot"; msg_content := JStr "A university." |};
     {| msg_role := "bot"; msg_content := JStr "In Noida." |}]
  /\ history
       (shown
          (page_after "session-1"
             [Types "What is Amity?";
              Clicks (answering 200 (Some sample_reply));
              Types "And where?";
              Clicks (answering 200 (Some (JObj [("result", JStr "In Noida.")])));
              Settles 0;
              Settles 0]))
     = [("What is Amity?", JStr "A university."); ("And where?", JStr "In Noida.")].
Proof. split; reflexivity. Qed.
